(** * Carlo experiment service: a shallow embedding of
      [backend/services/experiment_service.py] and
      [backend/core/database.py], and the properties of the job registry,
      the lifecycle transitions, the progress parser and the file facade.

    Conventions of the model.
    - A Python [str] is a Rocq [string]; the lines the parser sees are
      taken to be ASCII, so whitespace and lower-casing are the ASCII ones.
    - A Python [float] is an IEEE-754 binary64 value, [spec_float] with
      precision 53 and maximal exponent 1024; [float(s)] rounds the decimal
      it reads to the nearest such value, ties to even.
    - A Python [int] is a [Z].
    - A Python [dict] with string keys is a [gmap string _]; keyword
      arguments, whose order matters, are an association list.
    - A raised exception is the [Raised] outcome of a computation; the
      state reached before the exception is kept.
    - The service is a record that the methods take and return.  A
      method that reads the clock takes the time as [now]; the two reads
      of one status update, in memory and in the store, are the same
      instant.
    - The task that supervises a child process runs between the calls of
      the facade; each stretch of it that touches the registry is a
      function of its own ([task_launch], [poll_timeout], [task_exit],
      [task_timeout], [cancel_and_await]).
    - The durable store is the table of its rows, keyed by [id], with
      the columns that the service writes after a row is made.  A call
      that the store cannot serve, because it is out of reach or because
      it refuses a value for a column that is not kept here, is a call
      on a service whose [database_up] is false.
    - The file system is a record of the five operations the service
      uses, each of which returns or raises; [tree_fs] is an instance
      without symbolic links. *)

From Stdlib Require Import ZArith List Bool Lia Sorted.
From Stdlib Require Import Strings.String Strings.Ascii.
From Stdlib Require Import Floats.SpecFloat.
From stdpp Require Import gmap strings list fin_maps pretty.

Local Open Scope string_scope.
Local Open Scope Z_scope.

(** ** Exceptions and outcomes *)

Inductive exn : Type :=
| ValueError (msg : string)
| IndexError
| KeyError (key : string)
| TypeError (msg : string)
| RuntimeError (msg : string)
| Exception (msg : string).

(** [str(e)] *)
Definition exn_str (e : exn) : string :=
  match e with
  | ValueError msg | TypeError msg | RuntimeError msg | Exception msg => msg
  | IndexError => "list index out of range"
  | KeyError key => String "'" (key ++ "'")
  end.

Inductive outcome (A : Type) : Type :=
| Returned (a : A)
| Raised (e : exn).
Arguments Returned {A} a.
Arguments Raised {A} e.

Definition bind {A B : Type} (m : outcome A) (k : A -> outcome B) : outcome B :=
  match m with
  | Returned a => k a
  | Raised e => Raised e
  end.

Notation "'let!' x ':=' m 'in' k" := (bind m (fun x => k))
  (at level 10, x name, m at level 100, k at level 200).

(** ** Python string primitives *)

Module Str.

(** [str.isspace] on one ASCII character: tab, line feed, vertical tab,
    form feed, carriage return, the four separators 28..31 and space. *)
Definition is_space (c : ascii) : bool :=
  let n := nat_of_ascii c in
  ((9 <=? n) && (n <=? 13) || (28 <=? n) && (n <=? 31) || (n =? 32))%nat.

Definition is_digit (c : ascii) : bool :=
  let n := nat_of_ascii c in ((48 <=? n) && (n <=? 57))%nat.

Definition digit_value (c : ascii) : Z := Z.of_nat (nat_of_ascii c) - 48.

Definition lower_char (c : ascii) : ascii :=
  let n := nat_of_ascii c in
  if ((65 <=? n) && (n <=? 90))%nat then ascii_of_nat (n + 32) else c.

(** [s.lower()] *)
Fixpoint lower (s : string) : string :=
  match s with
  | EmptyString => EmptyString
  | String c s' => String (lower_char c) (lower s')
  end.

(** [s.startswith(p)] *)
Fixpoint startswith (p s : string) : bool :=
  match p, s with
  | EmptyString, _ => true
  | String a p', String b s' => Ascii.eqb a b && startswith p' s'
  | String _ _, EmptyString => false
  end.

(** [needle in hay] *)
Fixpoint contains (needle hay : string) : bool :=
  startswith needle hay ||
  match hay with
  | EmptyString => false
  | String _ hay' => contains needle hay'
  end.

Fixpoint drop (n : nat) (s : string) : string :=
  match n, s with
  | O, _ => s
  | S n', String _ s' => drop n' s'
  | S _, EmptyString => EmptyString
  end.

(** [s.partition(sep)] when [sep] occurs: the text before the first
    occurrence and the text after it. *)
Fixpoint cut (sep s : string) : option (string * string) :=
  if startswith sep s then Some (EmptyString, drop (String.length sep) s)
  else match s with
       | EmptyString => None
       | String c s' =>
           match cut sep s' with
           | Some (before, after) => Some (String c before, after)
           | None => None
           end
       end.

(** [s.split(sep)] for a non-empty [sep]: the pieces between the
    successive, non-overlapping occurrences of [sep], left to right.
    The fuel bounds the number of pieces; [split] gives enough. *)
Fixpoint split_fuel (fuel : nat) (sep s : string) : list string :=
  match fuel with
  | O => [s]
  | S fuel' =>
      match cut sep s with
      | Some (before, after) => before :: split_fuel fuel' sep after
      | None => [s]
      end
  end.

Definition split (sep s : string) : list string :=
  split_fuel (String.length s) sep s.

(** [s.lstrip()], [s.rstrip()], [s.strip()] *)
Fixpoint lstrip (s : string) : string :=
  match s with
  | EmptyString => EmptyString
  | String c s' => if is_space c then lstrip s' else s
  end.

Fixpoint rstrip (s : string) : string :=
  match s with
  | EmptyString => EmptyString
  | String c s' =>
      match rstrip s' with
      | EmptyString => if is_space c then EmptyString else String c EmptyString
      | r => String c r
      end
  end.

Definition strip (s : string) : string := rstrip (lstrip s).

(** [s.split()] with no argument: the maximal runs of non-whitespace
    characters.  [word] reads one run, [split_ws_aux true] skips the rest of it. *)
Fixpoint word (s : string) : string :=
  match s with
  | EmptyString => EmptyString
  | String c s' => if is_space c then EmptyString else String c (word s')
  end.

Fixpoint split_ws_aux (inword : bool) (s : string) : list string :=
  match s with
  | EmptyString => []
  | String c s' =>
      if is_space c then split_ws_aux false s'
      else if inword then split_ws_aux true s'
           else word s :: split_ws_aux true s'
  end.

Definition split_ws (s : string) : list string := split_ws_aux false s.

End Str.

(** [l[i]] on a list, with Python's [IndexError] out of range
    (non-negative indices only, the ones the source uses). *)
Definition index {A : Type} (l : list A) (i : nat) : outcome A :=
  match l !! i with
  | Some a => Returned a
  | None => Raised IndexError
  end.

(** ** Python number parsing *)

Module Num.

(** The longest prefix of decimal digits: its value on top of [acc],
    the number of digits read, and the rest of the string. *)
Fixpoint read_digits (acc : Z) (n : nat) (s : string) : Z * nat * string :=
  match s with
  | EmptyString => (acc, n, s)
  | String c s' =>
      if Str.is_digit c then read_digits (10 * acc + Str.digit_value c) (S n) s'
      else (acc, n, s)
  end.

(** An optional sign: whether it is a minus, and the rest. *)
Definition read_sign (s : string) : bool * string :=
  match s with
  | String "-" s' => (true, s')
  | String "+" s' => (false, s')
  | _ => (false, s)
  end.

(** Underscores in a numeric literal are accepted only between two
    digits; [prev] is the character before. *)
Fixpoint underscores_ok (prev : option ascii) (s : string) : bool :=
  let prev_digit := match prev with Some p => Str.is_digit p | None => false end in
  let prev_us := match prev with Some "_"%char => true | _ => false end in
  match s with
  | EmptyString => negb prev_us
  | String "_" s' => prev_digit && underscores_ok (Some "_"%char) s'
  | String c s' => (negb prev_us || Str.is_digit c) && underscores_ok (Some c) s'
  end.

Fixpoint remove_underscores (s : string) : string :=
  match s with
  | EmptyString => EmptyString
  | String "_" s' => remove_underscores s'
  | String c s' => String c (remove_underscores s')
  end.

(** [int(s)] in base 10: surrounding whitespace, an optional sign, then
    digits, single underscores allowed between digits.  (The limit that
    recent interpreters put on the number of digits, beyond which they
    raise [ValueError] too, is left out.) *)
Definition py_int (s : string) : outcome Z :=
  let (neg, body) := read_sign (Str.strip s) in
  if underscores_ok None body then
    match read_digits 0 0 (remove_underscores body) with
    | (v, S _, EmptyString) => Returned (if neg then - v else v)
    | _ => Raised (ValueError "invalid literal for int() with base 10")
    end
  else Raised (ValueError "invalid literal for int() with base 10").

Definition prec : Z := 53.
Definition emax : Z := 1024.

(** The binary64 value nearest to [m * 10 ^ e10] (ties to even), with
    the sign [neg].  A negative [e10] is a division, rounded from the
    quotient and the position of the remainder. *)
Definition of_decimal (neg : bool) (m e10 : Z) : spec_float :=
  match m with
  | Zpos p =>
      if 0 <=? e10 then
        match Zpos p * 10 ^ e10 with
        | Zpos q => binary_round prec emax neg q 0
        | _ => S754_zero neg
        end
      else
        let d := 10 ^ (- e10) in
        let s := Z.max 0 (55 + Zdigits2 d - Zdigits2 m) in
        let '(q, r) := Z.div_eucl (Z.shiftl m s) d in
        binary_round_aux prec emax neg q (- s) (new_location d r)
  | _ => S754_zero neg
  end.

(** The decimal grammar of [float]: digits, an optional point and
    fraction, an optional exponent; at least one digit before the
    exponent.  The result is the integer mantissa and the power of ten. *)
Definition read_decimal (s : string) : option (Z * Z) :=
  let '(ip, ni, r1) := read_digits 0 0 s in
  let '(m, nf, r2) :=
    match r1 with
    | String "." r => read_digits ip 0 r
    | _ => (ip, O, r1)
    end in
  match (ni + nf)%nat with
  | O => None
  | S _ =>
      match r2 with
      | EmptyString => Some (m, - Z.of_nat nf)
      | String c r3 =>
          if Ascii.eqb c "e" || Ascii.eqb c "E" then
            let (eneg, r4) := read_sign r3 in
            match read_digits 0 0 r4 with
            | (ev, S _, EmptyString) =>
                Some (m, (if eneg then - ev else ev) - Z.of_nat nf)
            | _ => None
            end
          else None
      end
  end.

(** [float(s)] *)
Definition py_float (s : string) : outcome spec_float :=
  let t := Str.strip s in
  if underscores_ok None t then
    let (neg, body) := read_sign (remove_underscores t) in
    let low := Str.lower body in
    if String.eqb low "inf" || String.eqb low "infinity" then
      Returned (S754_infinity neg)
    else if String.eqb low "nan" then Returned S754_nan
    else match read_decimal body with
         | Some (m, e10) => Returned (of_decimal neg m e10)
         | None => Raised (ValueError "could not convert string to float")
         end
  else Raised (ValueError "could not convert string to float").

End Num.

(** ** Values, dictionaries and records of the service *)

(** A point in time, as [datetime.utcnow()] returns it; the in-memory
    dictionaries keep its [isoformat()] text, which determines it. *)
Definition datetime : Type := Z.

(** The Python values that the status dictionaries, keyword arguments and
    JSON artifacts of the service hold: [None], booleans, integers,
    floats, strings, lists of floats (the reward trace), any other
    JSON value, which the service only passes on, kept as its text, and
    [datetime] objects, which a keyword argument may carry. *)
Inductive value : Type :=
| VNone
| VBool (b : bool)
| VInt (z : Z)
| VFloat (f : spec_float)
| VStr (s : string)
| VFloats (l : list spec_float)
| VJson (text : string)
| VDate (t : datetime).

(** Modelled from the spec: the enumeration [ExperimentStatusEnum] of
    [models/experiment.py], which is not among the sources; its members
    and their string values are the five statuses of the data model, the
    ones the comment on [ExperimentRecord.status] lists. *)
Inductive ExperimentStatusEnum : Type :=
| CREATED | RUNNING | COMPLETED | FAILED | STOPPED.

Definition enum_value (s : ExperimentStatusEnum) : string :=
  match s with
  | CREATED => "created"
  | RUNNING => "running"
  | COMPLETED => "completed"
  | FAILED => "failed"
  | STOPPED => "stopped"
  end.

(** The ["progress"] entry of a status dictionary: the key may be absent,
    bound to [None], or bound to a dictionary. *)
Inductive slot : Type :=
| Missing
| IsNone
| IsDict (d : gmap string value).

(** One value of [ExperimentService.experiment_status]: the entries of
    the status dictionary that the service reads or writes. *)
Record status_dict : Type := mk_status_dict {
  status : string;
  config : gmap string value;
  started_at : option datetime;
  completed_at : option datetime;
  error_message : value;
  output_directory : option string;
  progress : slot
}.

Definition set_status (v : string) (sd : status_dict) : status_dict :=
  mk_status_dict v (config sd) (started_at sd) (completed_at sd)
                 (error_message sd) (output_directory sd) (progress sd).

Definition set_started_at (v : option datetime) (sd : status_dict) : status_dict :=
  mk_status_dict (status sd) (config sd) v (completed_at sd)
                 (error_message sd) (output_directory sd) (progress sd).

Definition set_completed_at (v : option datetime) (sd : status_dict) : status_dict :=
  mk_status_dict (status sd) (config sd) (started_at sd) v
                 (error_message sd) (output_directory sd) (progress sd).

Definition set_error_message (v : value) (sd : status_dict) : status_dict :=
  mk_status_dict (status sd) (config sd) (started_at sd) (completed_at sd)
                 v (output_directory sd) (progress sd).

Definition set_progress (v : slot) (sd : status_dict) : status_dict :=
  mk_status_dict (status sd) (config sd) (started_at sd) (completed_at sd)
                 (error_message sd) (output_directory sd) v.

(** Keyword arguments: a dictionary in insertion order. *)
Definition kwargs_t : Type := list (string * value).

(** [d[k] = v] on an ordered dictionary: an existing key keeps its place,
    a new key goes last. *)
Fixpoint kw_set (k : string) (v : value) (d : kwargs_t) : kwargs_t :=
  match d with
  | [] => [(k, v)]
  | (k', v') :: d' =>
      if String.eqb k k' then (k, v) :: d' else (k', v') :: kw_set k v d'
  end.

(** ** The durable store, [core/database.py] *)

Module Database.

(** The columns of [ExperimentRecord] that the service writes after the
    row is made; the primary key [id] is the key of the table.  The
    other columns ([route_id], [created_at], [notes], ...) are not
    kept. *)
Record ExperimentRecord : Type := mk_record {
  r_status : string;
  r_started_at : option datetime;
  r_completed_at : option datetime;
  r_best_reward : value;
  r_collision_found : value;
  r_error_message : value
}.

Definition with_status (v : string) (rec : ExperimentRecord) : ExperimentRecord :=
  mk_record v (r_started_at rec) (r_completed_at rec)
            (r_best_reward rec) (r_collision_found rec) (r_error_message rec).

Definition with_started_at (v : option datetime) (rec : ExperimentRecord) : ExperimentRecord :=
  mk_record (r_status rec) v (r_completed_at rec)
            (r_best_reward rec) (r_collision_found rec) (r_error_message rec).

Definition with_completed_at (v : option datetime) (rec : ExperimentRecord) : ExperimentRecord :=
  mk_record (r_status rec) (r_started_at rec) v
            (r_best_reward rec) (r_collision_found rec) (r_error_message rec).

(** What a [DateTime] column takes: a date or [None]; the SQLite
    dialect refuses any other value when the row is written. *)
Definition as_timestamp (v : value) : outcome (option datetime) :=
  match v with
  | VDate t => Returned (Some t)
  | VNone => Returned None
  | _ => Raised (Exception "SQLite DateTime type only accepts Python datetime and date objects as input.")
  end.

(** What the primary key takes: a string, as it is; [None] is refused.
    A number or a date, which SQLite would keep as a text of its own
    making, is not followed: it is refused here as well. *)
Definition as_key (v : value) : outcome string :=
  match v with
  | VStr s => Returned s
  | _ => Raised (Exception "NOT NULL constraint failed: experiments.id")
  end.

(** [if hasattr(record, key): setattr(record, key, value)] on the record
    and its primary key.  Every column of the record can be assigned:
    the three that the service passes keep the value given, the two
    timestamps take a date or [None], and [id] moves the row to another
    key.  A value that the store refuses raises when the row is written
    by [db.commit()]; nothing happens between the assignment and the
    commit, so the failure is placed here.  [hasattr] is false for
    ["final_reward"] and for any name that is no attribute, and an
    assignment to a column that is not kept, or to an attribute that is
    no column, changes nothing that is kept. *)
Definition setattr (acc : ExperimentRecord * string) (kv : string * value)
  : outcome (ExperimentRecord * string) :=
  let (rec, pk) := acc in
  let (key, v) := kv in
  if String.eqb key "best_reward" then
    Returned (mk_record (r_status rec) (r_started_at rec) (r_completed_at rec)
                        v (r_collision_found rec) (r_error_message rec), pk)
  else if String.eqb key "collision_found" then
    Returned (mk_record (r_status rec) (r_started_at rec) (r_completed_at rec)
                        (r_best_reward rec) v (r_error_message rec), pk)
  else if String.eqb key "error_message" then
    Returned (mk_record (r_status rec) (r_started_at rec) (r_completed_at rec)
                        (r_best_reward rec) (r_collision_found rec) v, pk)
  else if String.eqb key "started_at" then
    let! t := as_timestamp v in Returned (with_started_at t rec, pk)
  else if String.eqb key "completed_at" then
    let! t := as_timestamp v in Returned (with_completed_at t rec, pk)
  else if String.eqb key "id" then
    let! s := as_key v in Returned (rec, s)
  else Returned acc.

(** The loop [for key, value in kwargs.items()]. *)
Fixpoint setattrs (kwargs : kwargs_t) (acc : ExperimentRecord * string)
  : outcome (ExperimentRecord * string) :=
  match kwargs with
  | [] => Returned acc
  | kv :: rest => let! acc' := setattr acc kv in setattrs rest acc'
  end.

(** A keyword argument named like one of the two parameters of
    [update_experiment_status] cannot be passed: the call itself raises
    [TypeError]. *)
Definition binds_parameter (kwargs : kwargs_t) : bool :=
  existsb (fun kv => String.eqb (fst kv) "experiment_id" || String.eqb (fst kv) "status")
          kwargs.

(** [status in ["completed", "failed", "stopped"]] *)
Definition is_terminal (st : string) : bool :=
  String.eqb st "completed" || String.eqb st "failed" || String.eqb st "stopped".

(** Truth value of a timestamp column: [None] is false, a date is true. *)
Definition truthy (t : option datetime) : bool :=
  match t with Some _ => true | None => false end.

(** The status and the timestamps of [if record:] in
    [update_experiment_status]: the timestamps are written only while
    they are unset. *)
Definition stamp_record (st : string) (now : datetime) (rec : ExperimentRecord)
  : ExperimentRecord :=
  let rec1 := with_status st rec in
  if String.eqb st "running" && negb (truthy (r_started_at rec1)) then
    with_started_at (Some now) rec1
  else if is_terminal st && negb (truthy (r_completed_at rec1)) then
    with_completed_at (Some now) rec1
  else rec1.

(** The body of [if record:] up to the commit: the record as it is about
    to be written, and the primary key it then carries. *)
Definition update_record
    (st : string) (kwargs : kwargs_t) (now : datetime)
    (pk : string) (rec : ExperimentRecord) : outcome (ExperimentRecord * string) :=
  setattrs kwargs (stamp_record st now rec, pk).

(** [db.commit()] of the row found under [experiment_id]: it is written
    under the key it now carries, which must not be the key of another
    row. *)
Definition commit (experiment_id : string) (row : ExperimentRecord * string)
    (table : gmap string ExperimentRecord) : outcome (gmap string ExperimentRecord) :=
  let (rec, pk) := row in
  if String.eqb pk experiment_id then Returned (<[experiment_id := rec]> table)
  else
    match table !! pk with
    | Some _ => Raised (Exception "UNIQUE constraint failed: experiments.id")
    | None => Returned (<[pk := rec]> (delete experiment_id table))
    end.

(** [update_experiment_status(experiment_id, status, **kwargs)] on the
    table of records: the table after the call, or the exception that
    the call raises, which leaves the table as it was. *)
Definition update_experiment_status
    (experiment_id : string) (st : string) (kwargs : kwargs_t) (now : datetime)
    (table : gmap string ExperimentRecord) : outcome (gmap string ExperimentRecord) :=
  if binds_parameter kwargs then
    Raised (TypeError "update_experiment_status() got multiple values for argument")
  else
    match table !! experiment_id with
    | Some rec =>
        let! row := update_record st kwargs now experiment_id rec in
        commit experiment_id row table
    | None => Returned table
    end.

End Database.

(** ** The service, [services/experiment_service.py] *)

(** The [asyncio.Task] that runs [_run_experiment_task] for a job:
    created by [start_experiment] and not yet scheduled, or started and
    suspended at one of its awaits.  A task that has finished has run its
    [finally] clause and is no longer in [active_experiments]. *)
Inductive task : Type := Pending | Started.

(** The state of [ExperimentService], together with the table of the
    durable store it writes to and whether that store serves a call. *)
Record service : Type := mk_service {
  active_experiments : gmap string task;
  experiment_status : gmap string status_dict;
  records : gmap string Database.ExperimentRecord;
  database_up : bool
}.

Definition with_active (a : gmap string task) (svc : service) : service :=
  mk_service a (experiment_status svc) (records svc) (database_up svc).

Definition with_status_map (m : gmap string status_dict) (svc : service) : service :=
  mk_service (active_experiments svc) m (records svc) (database_up svc).

Definition with_records (r : gmap string Database.ExperimentRecord) (svc : service) : service :=
  mk_service (active_experiments svc) (experiment_status svc) r (database_up svc).

(** *** [_update_experiment_status] *)

(** [if "progress" not in status_dict: status_dict["progress"] = {}]
    followed by [status_dict["progress"][key] = value]; the item
    assignment fails on a ["progress"] that is [None]. *)
Definition progress_setitem (key : string) (v : value) (sd : status_dict)
  : outcome status_dict :=
  match progress sd with
  | Missing => Returned (set_progress (IsDict {[ key := v ]}) sd)
  | IsNone => Raised (TypeError "'NoneType' object does not support item assignment")
  | IsDict d => Returned (set_progress (IsDict (<[ key := v ]> d)) sd)
  end.

(** The loop [for key, value in kwargs.items()] of
    [_update_experiment_status].  The body assigns [kwargs["best_reward"]]
    while the dictionary is being iterated; the iterator, before it
    yields the entry at position [i] or stops, raises [RuntimeError] if
    the size of the dictionary is no longer [n0], the size at the start.
    [todo] counts the entries still to visit. *)
Fixpoint kwargs_loop (todo i n0 : nat) (kwargs : kwargs_t) (sd : status_dict)
  : outcome kwargs_t * status_dict :=
  if negb (Nat.eqb (length kwargs) n0) then
    (Raised (RuntimeError "dictionary changed size during iteration"), sd)
  else
    match todo with
    | O => (Returned kwargs, sd)
    | S todo' =>
        match kwargs !! i with
        | None => (Returned kwargs, sd)
        | Some (key, v) =>
            if String.eqb key "error_message" then
              kwargs_loop todo' (S i) n0 kwargs (set_error_message v sd)
            else if String.eqb key "final_reward" then
              match progress_setitem "best_reward" v sd with
              | Returned sd' =>
                  kwargs_loop todo' (S i) n0 (kw_set "best_reward" v kwargs) sd'
              | Raised e => (Raised e, sd)
              end
            else if String.eqb key "collision_found" then
              match progress_setitem "collision_found" v sd with
              | Returned sd' => kwargs_loop todo' (S i) n0 kwargs sd'
              | Raised e => (Raised e, sd)
              end
            else kwargs_loop todo' (S i) n0 kwargs sd
        end
    end.

(** The second loop, which renames ["final_reward"] for the store. *)
Definition db_kwargs (kwargs : kwargs_t) : kwargs_t :=
  fold_left
    (fun acc kv =>
       if String.eqb (fst kv) "final_reward" then kw_set "best_reward" (snd kv) acc
       else kw_set (fst kv) (snd kv) acc)
    kwargs [].

(** The timestamp written in memory: unconditionally, on every update. *)
Definition stamp (st : ExperimentStatusEnum) (now : datetime) (sd : status_dict)
  : status_dict :=
  match st with
  | RUNNING => set_started_at (Some now) sd
  | COMPLETED | FAILED | STOPPED => set_completed_at (Some now) sd
  | CREATED => sd
  end.

(** The call of the store inside [try ... except Exception]: an
    unreachable store raises, as does a call that the store refuses,
    and the exception is logged and dropped. *)
Definition store_update (experiment_id : string) (st : string) (kwargs : kwargs_t)
    (now : datetime) (svc : service) : service :=
  if database_up svc then
    match Database.update_experiment_status experiment_id st kwargs now (records svc) with
    | Returned table => with_records table svc
    | Raised _ => svc
    end
  else svc.

Definition _update_experiment_status
    (experiment_id : string) (st : ExperimentStatusEnum) (kwargs : kwargs_t)
    (now : datetime) (svc : service) : outcome unit * service :=
  match experiment_status svc !! experiment_id with
  | None => (Returned tt, svc)
  | Some sd =>
      let sd1 := stamp st now (set_status (enum_value st) sd) in
      let '(res, sd2) := kwargs_loop (length kwargs) 0 (length kwargs) kwargs sd1 in
      let svc1 := with_status_map (<[ experiment_id := sd2 ]> (experiment_status svc)) svc in
      match res with
      | Raised e => (Raised e, svc1)
      | Returned kwargs' =>
          (Returned tt,
           store_update experiment_id (enum_value st) (db_kwargs kwargs') now svc1)
      end
  end.

(** *** [_parse_progress_info] *)

(** The three locals of [_parse_progress_info] after its [if]/[elif]
    chain; they start as [None], [False] and [0]. *)
Record parsed : Type := mk_parsed {
  p_best_reward : option spec_float;
  p_collision_found : bool;
  p_current_iteration : Z
}.

(** The loop over [enumerate(parts)]: the first word ["Iteration"] whose
    next word holds a ["/"] gives the number before that ["/"]. *)
Fixpoint iteration_loop (parts : list string) : outcome Z :=
  match parts with
  | [] => Returned 0
  | part :: rest =>
      if String.eqb part "Iteration" then
        match rest with
        | iter_part :: _ =>
            if Str.contains "/" iter_part then
              let! head := index (Str.split "/" iter_part) 0 in
              Num.py_int head
            else iteration_loop rest
        | [] => iteration_loop rest
        end
      else iteration_loop rest
  end.

Definition parse_line (line_str : string) : outcome parsed :=
  if Str.contains "Best reward:" line_str then
    let! piece := index (Str.split "Best reward:" line_str) 1 in
    let reward_part := Str.strip piece in
    let! token := index (Str.split_ws reward_part) 0 in
    let! best_reward := Num.py_float token in
    Returned (mk_parsed (Some best_reward) false 0)
  else if Str.contains "Iteration" line_str && Str.contains "/" line_str then
    let! current_iteration := iteration_loop (Str.split_ws line_str) in
    Returned (mk_parsed None false current_iteration)
  else if Str.contains "collision found" (Str.lower line_str)
          || Str.contains "COLLISION FOUND" line_str then
    Returned (mk_parsed None true 0)
  else Returned (mk_parsed None false 0).

(** The dictionary under ["progress"], created empty when the key is
    absent or bound to [None]. *)
Definition progress_dict (sd : status_dict) : gmap string value :=
  match progress sd with
  | IsDict d => d
  | Missing | IsNone => ∅
  end.

(** The three conditional assignments into [progress]. *)
Definition merge_parsed (p : parsed) (d : gmap string value) : gmap string value :=
  let d1 := match p_best_reward p with
            | Some r => <[ "best_reward" := VFloat r ]> d
            | None => d
            end in
  let d2 := if p_collision_found p then <[ "collision_found" := VBool true ]> d1 else d1 in
  if 0 <? p_current_iteration p
  then <[ "current_iteration" := VInt (p_current_iteration p) ]> d2
  else d2.

Definition merge_progress (experiment_id : string) (p : parsed) (svc : service) : service :=
  match experiment_status svc !! experiment_id with
  | None => svc
  | Some sd =>
      let sd' := set_progress (IsDict (merge_parsed p (progress_dict sd))) sd in
      with_status_map (<[ experiment_id := sd' ]> (experiment_status svc)) svc
  end.

(** The whole method: [ValueError] and [IndexError] are caught and the
    line is dropped; any other exception would propagate. *)
Definition _parse_progress_info (experiment_id line_str : string) (svc : service)
  : outcome unit * service :=
  match parse_line line_str with
  | Returned p => (Returned tt, merge_progress experiment_id p svc)
  | Raised (ValueError _) | Raised IndexError => (Returned tt, svc)
  | Raised e => (Raised e, svc)
  end.

(** *** The supervised task, [_run_experiment_task] *)

(** The locals [best_reward], [collision_found], [current_iteration] of
    the task.  They are initialised before the polling loop and nothing
    in the loop assigns them. *)
Record locals : Type := mk_locals {
  l_best_reward : value;
  l_collision_found : value;
  l_current_iteration : Z
}.

Definition initial_locals : locals := mk_locals VNone (VBool false) 0.

(** [progress.update({...})] in the polling loop, after a 30 s wait that
    timed out with the process alive and below the runtime ceiling.
    [elapsed_time] is [current_time - start_time]. *)
Definition progress_update (experiment_id : string) (loc : locals)
    (elapsed_time : spec_float) (svc : service) : service :=
  match experiment_status svc !! experiment_id with
  | None => svc
  | Some sd =>
      let total_iterations := default (VInt 10) (config sd !! "num_iterations") in
      let d :=
        <[ "recent_rewards" := VFloats [] ]>
        (<[ "estimated_remaining" := VNone ]>
        (<[ "elapsed_time" := VFloat elapsed_time ]>
        (<[ "collision_found" := l_collision_found loc ]>
        (<[ "best_reward" := l_best_reward loc ]>
        (<[ "total_iterations" := total_iterations ]>
        (<[ "current_iteration" := VInt (l_current_iteration loc) ]>
           (progress_dict sd))))))) in
      with_status_map
        (<[ experiment_id := set_progress (IsDict d) sd ]> (experiment_status svc)) svc
  end.

(** One turn of the polling loop that reaches the progress update. *)
Definition poll_timeout (experiment_id : string) (elapsed_time : spec_float)
    (svc : service) : service :=
  progress_update experiment_id initial_locals elapsed_time svc.

(** The [finally] clause. *)
Definition finally_cleanup (experiment_id : string) (svc : service) : service :=
  with_active (delete experiment_id (active_experiments svc)) svc.

(** The [except Exception as e] clause followed by [finally]. *)
Definition fail_task (experiment_id : string) (e : exn) (now : datetime)
    (svc : service) : outcome unit * service :=
  let '(res, svc1) :=
    _update_experiment_status experiment_id FAILED
      [("error_message", VStr (exn_str e))] now svc in
  (res, finally_cleanup experiment_id svc1).

(** The first step of the task, up to its first await: the cleanup, the
    configuration file, the check of the script and the spawning of the
    child; [launch] is how these went. *)
Definition task_launch (experiment_id : string) (launch : outcome unit)
    (now : datetime) (svc : service) : outcome unit * service :=
  match experiment_status svc !! experiment_id with
  | None => fail_task experiment_id (KeyError experiment_id) now svc
  | Some _ =>
      match launch with
      | Returned _ =>
          (Returned tt,
           with_active (<[ experiment_id := Started ]> (active_experiments svc)) svc)
      | Raised e => fail_task experiment_id e now svc
      end
  end.

(** The end of the task once the child has exited with [return_code] and
    both readers are done.  [results] is what reading
    [best_solution.json] gave: nothing when the file does not exist,
    else the object that [json.load] returned, or the exception that
    the check of the file, the read, or taking the entries of a loaded
    value that is no object raised. *)
Definition task_exit (experiment_id : string) (return_code : Z)
    (results : option (outcome (gmap string value))) (now : datetime) (svc : service)
  : outcome unit * service :=
  if return_code =? 0 then
    let loc := initial_locals in
    match results with
    | Some (Raised e) => fail_task experiment_id e now svc
    | _ =>
        let best_reward :=
          match results with
          | Some (Returned r) => default (l_best_reward loc) (r !! "best_reward")
          | _ => l_best_reward loc
          end in
        let collision_found :=
          match results with
          | Some (Returned r) => default (l_collision_found loc) (r !! "collision_found")
          | _ => l_collision_found loc
          end in
        match _update_experiment_status experiment_id COMPLETED
                [("final_reward", best_reward); ("collision_found", collision_found)]
                now svc with
        | (Returned _, svc1) => (Returned tt, finally_cleanup experiment_id svc1)
        | (Raised e, svc1) => fail_task experiment_id e now svc1
        end
    end
  else
    fail_task experiment_id
      (Exception ("Experiment subprocess failed with return code " ++ pretty return_code))
      now svc.

(** The runtime ceiling is exceeded: the child is terminated and the task
    raises. *)
Definition task_timeout (experiment_id : string) (now : datetime) (svc : service)
  : outcome unit * service :=
  fail_task experiment_id (Exception "Experiment timed out after 7200 seconds") now svc.

(** [task.cancel()] followed by [await task].  A task that never started
    is cancelled without running any of its body.  A started task gets
    [CancelledError] at its await, terminates the child, re-raises, and
    runs its [finally] clause. *)
Definition cancel_and_await (experiment_id : string) (t : task) (svc : service) : service :=
  match t with
  | Pending => svc
  | Started => finally_cleanup experiment_id svc
  end.

(** *** The facade *)

Definition start_experiment (experiment_id : string) (now : datetime) (svc : service)
  : outcome unit * service :=
  match experiment_status svc !! experiment_id with
  | None => (Raised (ValueError ("Experiment " ++ experiment_id ++ " not found")), svc)
  | Some _ =>
      match active_experiments svc !! experiment_id with
      | Some _ =>
          (Raised (ValueError ("Experiment " ++ experiment_id ++ " is already running")), svc)
      | None =>
          match _update_experiment_status experiment_id RUNNING [] now svc with
          | (Returned _, svc1) =>
              (Returned tt,
               with_active (<[ experiment_id := Pending ]> (active_experiments svc1)) svc1)
          | (Raised e, svc1) => (Raised e, svc1)
          end
      end
  end.

Definition stop_experiment (experiment_id : string) (now : datetime) (svc : service)
  : outcome unit * service :=
  match active_experiments svc !! experiment_id with
  | None =>
      (Raised (ValueError ("Experiment " ++ experiment_id ++ " is not running")), svc)
  | Some t =>
      let svc1 := cancel_and_await experiment_id t svc in
      (* del self.active_experiments[experiment_id] *)
      match active_experiments svc1 !! experiment_id with
      | None => (Raised (KeyError experiment_id), svc1)
      | Some _ =>
          _update_experiment_status experiment_id STOPPED [] now
            (with_active (delete experiment_id (active_experiments svc1)) svc1)
      end
  end.

(** [get_experiment]: the status dictionary of a known job. *)
Definition get_experiment (experiment_id : string) (svc : service) : option status_dict :=
  experiment_status svc !! experiment_id.

(** ** Paths and the file system *)

Module Path.

(** A [pathlib.PurePosixPath]: its root (no, one or two slashes) and
    its components. *)
Record t : Type := mk { root : nat; parts : list string }.

Fixpoint leading_slashes (s : string) : nat :=
  match s with
  | String "/" s' => S (leading_slashes s')
  | _ => O
  end.

(** [Path(s)]: empty components and ["."] are dropped, [".."] is kept;
    exactly two leading slashes are kept as such, more collapse to one. *)
Definition of_string (s : string) : t :=
  mk (match leading_slashes s with
      | O => 0
      | 2%nat => 2
      | _ => 1
      end)
     (List.filter (fun c => negb (String.eqb c "") && negb (String.eqb c "."))
                  (Str.split "/" s)).

(** [p / s]: an absolute [s] replaces [p]. *)
Definition truediv (p : t) (s : string) : t :=
  let q := of_string s in
  match root q with
  | O => mk (root p) (parts p ++ parts q)%list
  | _ => q
  end.

Fixpoint is_prefix (l1 l2 : list string) : bool :=
  match l1, l2 with
  | [], _ => true
  | a :: l1', b :: l2' => String.eqb a b && is_prefix l1' l2'
  | _ :: _, [] => false
  end.

(** [p.is_relative_to(other)]: same root, and the components of
    [other] begin those of [p]. *)
Definition is_relative_to (p other : t) : bool :=
  Nat.eqb (root p) (root other) && is_prefix (parts other) (parts p).

(** [p.relative_to(other)] *)
Definition relative_to (p other : t) : outcome t :=
  if is_relative_to p other
  then Returned (mk 0 (drop (length (parts other)) (parts p)))
  else Raised (ValueError "path is not in the subpath of the other path").

(** [p.name] *)
Definition name (p : t) : string := List.last (parts p) "".

Fixpoint join (l : list string) : string :=
  match l with
  | [] => ""
  | [c] => c
  | c :: l' => c ++ "/" ++ join l'
  end.

(** [str(p)] *)
Definition to_string (p : t) : string :=
  match root p, parts p with
  | O, [] => "."
  | O, l => join l
  | 2%nat, l => "//" ++ join l
  | _, l => "/" ++ join l
  end.

End Path.

(** What the service asks of the file system.  Each call returns or
    raises: [exists()] and [is_file()] raise [OSError] on a name that is
    too long, [resolve()] raises on a loop of symbolic links and
    [ValueError] on an embedded null character.  [fs_load_json] is
    [open], [json.load] and the reading of the loaded value as a
    dictionary: a file that cannot be read, a text that is not JSON and
    a JSON value that is no object (its first [.get] raises
    [AttributeError]) are all a [Raised]. *)
Record filesystem : Type := mk_fs {
  fs_exists : Path.t -> outcome bool;              (* [p.exists()] *)
  fs_is_file : Path.t -> outcome bool;             (* [p.is_file()] *)
  fs_iterdir : Path.t -> outcome (list string);    (* names of [p.iterdir()], in listing order *)
  fs_resolve : Path.t -> outcome Path.t;           (* [p.resolve()] *)
  fs_load_json : Path.t -> outcome (gmap string value)
}.

(** [sorted(files)] on strings. *)
Fixpoint insert_sorted (x : string) (l : list string) : list string :=
  match l with
  | [] => [x]
  | y :: l' => if String.leb x y then x :: l else y :: insert_sorted x l'
  end.

Definition sorted (l : list string) : list string :=
  fold_right insert_sorted [] l.

(** The loop [for file_path in output_dir.iterdir()] over the names
    listed: [files.append(file_path.name)] for those that [is_file()]. *)
Fixpoint regular_files (fs : filesystem) (output_dir : Path.t) (names : list string)
  : outcome (list string) :=
  match names with
  | [] => Returned []
  | n :: rest =>
      let! is_file := fs_is_file fs (Path.truediv output_dir n) in
      let! files := regular_files fs output_dir rest in
      Returned (if is_file then n :: files else files)
  end.

Definition _list_result_files (fs : filesystem) (output_dir : Path.t)
  : outcome (list string) :=
  let! present := fs_exists fs output_dir in
  if negb present then Returned []
  else
    let! names := fs_iterdir fs output_dir in
    let! files := regular_files fs output_dir names in
    Returned (sorted files).

(** The keyword arguments that [get_experiment_results] gives to
    [ExperimentResult], a class of [models/experiment.py]. *)
Record ExperimentResult : Type := mk_result {
  res_experiment_id : string;
  res_final_status : string;
  res_total_iterations : value;
  res_best_reward : value;
  res_best_parameters : value;
  res_collision_found : value;
  res_collision_details : value;
  res_total_duration : value;
  res_average_iteration_time : value;
  res_min_reward : value;
  res_max_reward : value;
  res_mean_reward : value;
  res_std_reward : value;
  res_result_files : list string;
  res_output_directory : string
}.

(** [d.get(key, dflt)] *)
Definition dict_get (d : gmap string value) (key : string) (dflt : value) : value :=
  default dflt (d !! key).

(** [Path(experiment.output_directory or "")] *)
Definition output_dir_of (sd : status_dict) : Path.t :=
  Path.of_string (default "" (output_directory sd)).

Definition get_experiment_results (fs : filesystem) (experiment_id : string)
    (svc : service) : outcome (option ExperimentResult) :=
  match get_experiment experiment_id svc with
  | None => Returned None
  | Some experiment =>
      let output_dir := output_dir_of experiment in
      let best_solution_file := Path.truediv output_dir "best_solution.json" in
      let! present := fs_exists fs best_solution_file in
      let! best_solution_data :=
        if present then fs_load_json fs best_solution_file
        else Returned ∅ in
      let! result_files := _list_result_files fs output_dir in
      Returned (Some (mk_result
        experiment_id
        (status experiment)
        (dict_get best_solution_data "total_iterations" (VInt 0))
        (dict_get best_solution_data "best_reward" VNone)
        (dict_get best_solution_data "best_parameters" VNone)
        (dict_get best_solution_data "collision_found" (VBool false))
        VNone
        (dict_get best_solution_data "total_duration" VNone)
        (dict_get best_solution_data "average_iteration_time" VNone)
        (dict_get best_solution_data "min_reward" VNone)
        (dict_get best_solution_data "max_reward" VNone)
        (dict_get best_solution_data "mean_reward" VNone)
        (dict_get best_solution_data "std_reward" VNone)
        result_files
        (Path.to_string output_dir)))
  end.

Definition get_experiment_file_path (fs : filesystem) (experiment_id filename : string)
    (svc : service) : outcome (option Path.t) :=
  match get_experiment experiment_id svc with
  | None => Returned None
  | Some experiment =>
      let output_dir := output_dir_of experiment in
      let file_path := Path.truediv output_dir filename in
      let attempt :=
        let! resolved_file := fs_resolve fs file_path in
        let! resolved_dir := fs_resolve fs output_dir in
        let! relative := Path.relative_to resolved_file resolved_dir in
        let! present := fs_exists fs file_path in
        Returned (if present then Some file_path else None) in
      match attempt with
      | Raised (ValueError _) => Returned None
      | r => r
      end
  end.

(** *** A file tree without symbolic links

    The directories and the regular files of the tree, as lists of
    components from the root, and the working directory.  Resolving a
    path is then lexical: it is made absolute and its [".."] are
    folded, whether or not the directories named on the way exist.
    Looking a path up follows it as it is written. *)
Record tree : Type := mk_tree {
  cwd : list string;
  dirs : list (list string);
  files : list (list string)
}.

Definition normalize (l : list string) : list string :=
  fold_left (fun acc c => if String.eqb c ".." then removelast acc else (acc ++ [c])%list) l ([] : list string).

Definition absolute (t : tree) (p : Path.t) : list string :=
  normalize (match Path.root p with O => (cwd t ++ Path.parts p)%list | _ => Path.parts p end).

Definition mem (x : list string) (l : list (list string)) : bool :=
  bool_decide (x ∈ l).

(** The names of the entries of [l] that lie directly in [dir]. *)
Definition children (dir : list string) (l : list (list string)) : list string :=
  omap (fun e => if bool_decide (removelast e = dir) && bool_decide (e <> [])
                 then Some (List.last e "") else None) l.

(** Whether [d] is a directory of the tree; the root always is. *)
Definition is_dir (t : tree) (d : list string) : bool :=
  bool_decide (d = []) || mem d (dirs t).

(** The limits of Linux on the length of a component and of a path. *)
Definition NAME_MAX : nat := 255.
Definition PATH_MAX : nat := 4096.

Definition name_too_long : exn := Exception "[Errno 36] File name too long".

(** The lookup of the components [cs] from the directory [cur], as the
    system call does it: each component is looked up in what was
    reached, which must be a directory; [".."] leads to the parent and
    the root is its own parent; a component longer than [NAME_MAX] is
    an error.  The result is what was reached, or nothing when a
    component is missing. *)
Fixpoint walk (t : tree) (cur : list string) (cs : list string)
  : outcome (option (list string)) :=
  match cs with
  | [] => Returned (Some cur)
  | c :: rest =>
      if is_dir t cur then
        if (NAME_MAX <? String.length c)%nat then Raised name_too_long
        else walk t (if String.eqb c ".." then removelast cur else (cur ++ [c])%list) rest
      else Returned None
  end.

(** [os.stat] of the path as it is written. *)
Definition stat (t : tree) (p : Path.t) : outcome (option (list string)) :=
  if (PATH_MAX <=? String.length (Path.to_string p))%nat then Raised name_too_long
  else walk t (match Path.root p with O => cwd t | _ => [] end) (Path.parts p).

Definition has_null (s : string) : bool :=
  Str.contains (String "000"%char "") s.

(** [exists()] and [is_file()] answer [False] for a missing entry and
    pass the error of a name that is too long on; [iterdir()] raises for
    what is no directory; [resolve()] raises [ValueError] on a null
    character and is lexical otherwise; no file of the tree is taken to
    hold JSON. *)
Definition tree_fs (t : tree) : filesystem :=
  mk_fs
    (fun p => let! found := stat t p in
              Returned (match found with
                        | Some e => is_dir t e || mem e (files t)
                        | None => false
                        end))
    (fun p => let! found := stat t p in
              Returned (match found with
                        | Some e => mem e (files t)
                        | None => false
                        end))
    (fun p => let! found := stat t p in
              match found with
              | Some e =>
                  if is_dir t e
                  then Returned (children e (dirs t) ++ children e (files t))%list
                  else Raised (Exception "[Errno 20] Not a directory")
              | None => Raised (Exception "[Errno 2] No such file or directory")
              end)
    (fun p => if existsb has_null (Path.parts p)
              then Raised (ValueError "embedded null byte")
              else Returned (Path.mk 1 (absolute t p)))
    (fun p => Raised (Exception "not a JSON file")).

(** ** Observations *)

(** [progress.get(key)] for the job [experiment_id]; nothing when the job
    is unknown or has no progress dictionary. *)
Definition progress_item (svc : service) (experiment_id key : string) : option value :=
  match experiment_status svc !! experiment_id with
  | Some sd => progress_dict sd !! key
  | None => None
  end.

Definition job_status (svc : service) (experiment_id : string) : option string :=
  status <$> experiment_status svc !! experiment_id.

(** The state after a line went through the progress parser. *)
Definition parse_progress (experiment_id line_str : string) (svc : service) : service :=
  snd (_parse_progress_info experiment_id line_str svc).

(** The state after a stream of lines went through it, in order. *)
Definition feed (experiment_id : string) (lines : list string) (svc : service) : service :=
  fold_left (fun s line => parse_progress experiment_id line s) lines svc.

(** What a line tells about the iteration and about the reward, if anything. *)
Definition line_iteration (line_str : string) : option value :=
  match parse_line line_str with
  | Returned p =>
      if 0 <? p_current_iteration p then Some (VInt (p_current_iteration p)) else None
  | Raised _ => None
  end.







(** A registry and a store with the single job ["e1"], as
    [create_experiment] leaves them. *)
Definition fresh_job : status_dict :=
  mk_status_dict "created" {[ "num_iterations" := VInt 20 ]} None None VNone
                 (Some "/out/experiment_e1") IsNone.

Definition fresh_record : Database.ExperimentRecord :=
  Database.mk_record "created" None None VNone (VBool false) VNone.

Definition svc0 : service :=
  mk_service ∅ {[ "e1" := fresh_job ]} {[ "e1" := fresh_record ]} true.

(** The exceptions that [_parse_progress_info] catches. *)
Definition caught (e : exn) : Prop :=
  match e with
  | ValueError _ | IndexError => True
  | _ => False
  end.

(** The binary64 number 3.5, that is [7 * 2^50 * 2^(-51)]. *)
Definition three_and_a_half : spec_float :=
  S754_finite false (7 * 2 ^ 50) (-51).


(** The job ["e1"] after the line ["Iteration 7/20"], and a line that
    matches all three tests of the parser. *)
Definition svc_at_7 : service := parse_progress "e1" "Iteration 7/20" svc0.

Definition mixed_line : string := "Iteration 9/20 COLLISION FOUND Best reward: 3.5".

(** The job ["e1"] after a line that reports a collision. *)
Definition svc_collision : service := parse_progress "e1" "COLLISION FOUND" svc0.

(** The job ["e1"] started at time 5, its task running from time 6, and
    the job after the child exited with code 1 at time 9. *)
Definition svc_started : service := snd (start_experiment "e1" 5 svc0).

Definition svc_running : service := snd (task_launch "e1" (Returned tt) 6 svc_started).

Definition svc_failed : service := snd (task_exit "e1" 1 None 9 svc_running).

(** The statuses from which the spec allows no further transition. *)
Definition terminal (st : ExperimentStatusEnum) : bool :=
  match st with
  | COMPLETED | FAILED | STOPPED => true
  | CREATED | RUNNING => false
  end.

Definition job_started_at (svc : service) (experiment_id : string) : option (option datetime) :=
  started_at <$> experiment_status svc !! experiment_id.

Definition job_completed_at (svc : service) (experiment_id : string) : option (option datetime) :=
  completed_at <$> experiment_status svc !! experiment_id.

Definition record_started_at (svc : service) (experiment_id : string) : option (option datetime) :=
  Database.r_started_at <$> records svc !! experiment_id.

Definition record_completed_at (svc : service) (experiment_id : string) : option (option datetime) :=
  Database.r_completed_at <$> records svc !! experiment_id.

(** The result that [get_experiment_results] builds for the job [sd]
    when there is no [best_solution.json]: every field that comes from
    the artifact has its default, and [files] is the listing. *)
Definition empty_result (experiment_id : string) (sd : status_dict)
    (files : list string) : ExperimentResult :=
  mk_result experiment_id (status sd) (VInt 0) VNone VNone (VBool false) VNone
            VNone VNone VNone VNone VNone VNone files
            (Path.to_string (output_dir_of sd)).

(** The check [is_file()] of the entry [n] of [dir] returns. *)
Definition answers (fs : filesystem) (dir : Path.t) (n : string) : Prop :=
  exists b, fs_is_file fs (Path.truediv dir n) = Returned b.

(** The entry [n] of [dir] is found to be a regular file. *)
Definition regular (fs : filesystem) (dir : Path.t) (n : string) : bool :=
  match fs_is_file fs (Path.truediv dir n) with
  | Returned b => b
  | Raised _ => false
  end.

(** A tree in which the output directory of ["e1"] holds the generated
    configuration and a log, no [best_solution.json], and next to which
    lies a file [secret]. *)
Definition sample_tree : tree :=
  mk_tree []
          [ ["out"]; ["out"; "experiment_e1"] ]
          [ ["out"; "secret"];
            ["out"; "experiment_e1"; "experiment_config.json"];
            ["out"; "experiment_e1"; "a.log"] ].

(** The running job ["e1"] once the line ["Iteration 7/20"] was parsed,
    and the artifact of a run that found the reward 3.5. *)
Definition svc_running_at_7 : service := parse_progress "e1" "Iteration 7/20" svc_running.

Definition sample_results : gmap string value :=
  {[ "best_reward" := VFloat three_and_a_half; "collision_found" := VBool false ]}.

Definition job_error_message (svc : service) (experiment_id : string) : option value :=
  error_message <$> experiment_status svc !! experiment_id.

(** ** The rest of the service *)

(** *** [_read_stream] *)

(** A stream of the child is the list of what [line.decode()] gives for
    each line that [readline] returns before the end of the stream: the
    text of the line, or the exception of the decoding.  Every exception
    inside the loop ends the reading of the stream and is logged. *)
Fixpoint _read_stream (experiment_id : string) (lines : list (outcome string))
    (svc : service) : outcome unit * service :=
  match lines with
  | [] => (Returned tt, svc)
  | Raised _ :: _ => (Returned tt, svc)
  | Returned line :: rest =>
      let line_str := Str.strip line in
      if String.eqb line_str "" then _read_stream experiment_id rest svc
      else
        match _parse_progress_info experiment_id line_str svc with
        | (Returned _, svc') => _read_stream experiment_id rest svc'
        | (Raised _, svc') => (Returned tt, svc')
        end
  end.

(** The lines of a stream that reach the parser: stripped, not empty, and
    before the first line that cannot be decoded. *)
Fixpoint stream_lines (lines : list (outcome string)) : list string :=
  match lines with
  | [] => []
  | Raised _ :: _ => []
  | Returned line :: rest =>
      if String.eqb (Str.strip line) "" then stream_lines rest
      else Str.strip line :: stream_lines rest
  end.

(** *** [create_experiment] *)

(** [save_experiment_record] of [core/database.py], on the columns of
    [ExperimentRecord] kept here: a new row has the defaults of the
    columns; the commit fails when the primary key is already there. *)
Definition save_experiment_record (experiment_id : string)
    (table : gmap string Database.ExperimentRecord)
  : outcome (gmap string Database.ExperimentRecord) :=
  match table !! experiment_id with
  | Some _ => Raised (Exception "UNIQUE constraint failed: experiments.id")
  | None =>
      Returned (<[ experiment_id :=
                   Database.mk_record "created" None None VNone (VBool false) VNone ]> table)
  end.

(** The call of [save_experiment_record] inside [try ... except
    Exception]: a failure is logged and dropped. *)
Definition store_save (experiment_id : string) (svc : service) : service :=
  if database_up svc then
    match save_experiment_record experiment_id (records svc) with
    | Returned table => with_records table svc
    | Raised _ => svc
    end
  else svc.

(** [create_experiment].  [experiment_id] is the fresh [uuid4],
    [output_root] is [settings.output_dir], [config] the dictionary of
    the configuration, and [mkdir] how
    [output_dir.mkdir(parents=True, exist_ok=True)] went.  The entry
    [created_at], which nothing modelled reads, is not kept. *)
Definition create_experiment (experiment_id output_root : string)
    (config : gmap string value) (mkdir : outcome unit) (svc : service)
  : outcome status_dict * service :=
  let output_dir :=
    Path.truediv (Path.of_string output_root) ("experiment_" ++ experiment_id) in
  match mkdir with
  | Raised e => (Raised e, svc)
  | Returned _ =>
      let svc1 := store_save experiment_id svc in
      let created :=
        mk_status_dict (enum_value CREATED) config None None VNone
                       (Some (Path.to_string output_dir)) IsNone in
      (Returned created,
       with_status_map (<[ experiment_id := created ]> (experiment_status svc1)) svc1)
  end.

(** *** [delete_experiment] *)

(** [delete_experiment].  [rmtree] is how [shutil.rmtree] goes on a
    directory.  Beside the result and the service, the directories given
    to [shutil.rmtree] are returned.  [Path(None)] raises [TypeError]. *)
Definition delete_experiment (fs : filesystem) (rmtree : Path.t -> outcome unit)
    (experiment_id : string) (now : datetime) (svc : service)
  : outcome bool * service * list Path.t :=
  match experiment_status svc !! experiment_id with
  | None => (Returned false, svc, [])
  | Some _ =>
      let '(stopped, svc1) :=
        match active_experiments svc !! experiment_id with
        | Some _ => stop_experiment experiment_id now svc
        | None => (Returned tt, svc)
        end in
      match stopped with
      | Raised e => (Raised e, svc1, [])
      | Returned _ =>
          match experiment_status svc1 !! experiment_id with
          | None => (Raised (KeyError experiment_id), svc1, [])
          | Some sd =>
              match output_directory sd with
              | None =>
                  (Raised (TypeError "expected str, bytes or os.PathLike object, not NoneType"),
                   svc1, [])
              | Some dir =>
                  let output_dir := Path.of_string dir in
                  let removed :=
                    with_status_map (delete experiment_id (experiment_status svc1)) svc1 in
                  match fs_exists fs output_dir with
                  | Raised e => (Raised e, svc1, [])
                  | Returned true =>
                      match rmtree output_dir with
                      | Raised e => (Raised e, svc1, [output_dir])
                      | Returned _ => (Returned true, removed, [output_dir])
                      end
                  | Returned false => (Returned true, removed, [])
                  end
              end
          end
      end
  end.

(** *** [list_experiments] *)

(** [ExperimentStatusEnum(s)]; nothing stands for [ValueError]. *)
Definition enum_of_string (s : string) : option ExperimentStatusEnum :=
  if String.eqb s "created" then Some CREATED
  else if String.eqb s "running" then Some RUNNING
  else if String.eqb s "completed" then Some COMPLETED
  else if String.eqb s "failed" then Some FAILED
  else if String.eqb s "stopped" then Some STOPPED
  else None.

(** The keyword arguments that [list_experiments] gives to
    [ExperimentListItem], a class of [models/experiment.py]; [created_at]
    is left out, as in the status dictionary. *)
Record ExperimentListItem : Type := mk_item {
  item_id : string;
  item_status : ExperimentStatusEnum;
  item_route_id : value;
  item_route_file : value;
  item_search_method : value;
  item_completed_at : option datetime;
  item_collision_found : value;
  item_best_reward : value;
  item_total_iterations : value
}.

(** Truth value of an optional filter: [None] and [""] are false. *)
Definition filter_set (f : option string) : bool :=
  match f with
  | Some (String _ _) => true
  | _ => false
  end.

(** [status_dict.get("config", {}).get("search_method") != search_method] *)
Definition search_method_differs (sd : status_dict) (search_method : string) : bool :=
  match config sd !! "search_method" with
  | Some (VStr m) => negb (String.eqb m search_method)
  | _ => true
  end.

(** Whether the loop skips the job ([continue]). *)
Definition skipped (status_filter search_method : option string) (sd : status_dict) : bool :=
  (filter_set status_filter && negb (String.eqb (status sd) (default "" status_filter)))
  || (filter_set search_method && search_method_differs sd (default "" search_method)).

Definition list_item (exp_id : string) (sd : status_dict) : ExperimentListItem :=
  mk_item exp_id
          (default CREATED (enum_of_string (status sd)))
          (dict_get (config sd) "route_id" (VStr "unknown"))
          (dict_get (config sd) "route_file" (VStr "unknown"))
          (dict_get (config sd) "search_method" (VStr "unknown"))
          (completed_at sd)
          (dict_get (progress_dict sd) "collision_found" (VBool false))
          (dict_get (progress_dict sd) "best_reward" (VFloat (S754_zero false)))
          (dict_get (progress_dict sd) "current_iteration" (VInt 0)).

(** A bound of a slice [l[start:stop]]: a negative index counts from the
    end, and both are clipped to the list. *)
Definition slice_index (len : nat) (i : Z) : nat :=
  if i <? 0 then Z.to_nat (Z.max 0 (Z.of_nat len + i))
  else Nat.min (Z.to_nat i) len.

(** [l[start:stop]] *)
Definition py_slice {A : Type} (l : list A) (start stop : Z) : list A :=
  take (slice_index (length l) stop - slice_index (length l) start)
       (drop (slice_index (length l) start) l).

(** The list built by the loop, before pagination.  [order] lists the
    keys of [experiment_status] in the order of their insertion, which
    the loop follows. *)
Definition listed (order : list string) (status_filter search_method : option string)
    (svc : service) : list ExperimentListItem :=
  omap (fun exp_id =>
          match experiment_status svc !! exp_id with
          | Some sd =>
              if skipped status_filter search_method sd then None
              else Some (list_item exp_id sd)
          | None => None
          end) order.

Definition list_experiments (order : list string) (limit offset : Z)
    (status_filter search_method : option string) (svc : service)
  : list ExperimentListItem :=
  py_slice (listed order status_filter search_method svc) offset (offset + limit).

(** *** The route id given to the child *)

(** [s.endswith(suffix)] *)
Fixpoint endswith (suffix s : string) : bool :=
  String.eqb s suffix ||
  match s with
  | EmptyString => false
  | String _ s' => endswith suffix s'
  end.

(** The cleaning of [route_id] in [_run_experiment_task]. *)
Definition clean_route_id (route_id : string) : string :=
  if Str.startswith "(" route_id && endswith ")" route_id then "1" else route_id.

(** *** [_load_experiments_from_database] *)

(** A row that [list_experiment_records] returns: its id, the columns of
    [ExperimentRecord] kept above, the output directory, and the other
    columns by name. *)
Record row : Type := mk_row {
  row_id : string;
  row_record : Database.ExperimentRecord;
  row_output_directory : option string;
  row_columns : gmap string value
}.

(** Truth value of a Python value. *)
Definition py_truth (v : value) : bool :=
  match v with
  | VNone => false
  | VBool b => b
  | VInt z => negb (z =? 0)
  | VFloat (S754_zero _) => false
  | VFloat _ => true
  | VStr s => negb (String.eqb s "")
  | VFloats l => match l with [] => false | _ => true end
  | VJson _ => true
  | VDate _ => true
  end.

Definition is_none (v : value) : bool :=
  match v with VNone => true | _ => false end.

Definition column (r : row) (name : string) : value :=
  default VNone (row_columns r !! name).

(** The status dictionary built from a row. *)
Definition status_of_row (r : row) : status_dict :=
  let rec := row_record r in
  mk_status_dict
    (Database.r_status rec)
    (<[ "route_id" := column r "route_id" ]>
     (<[ "route_file" := column r "route_file" ]>
     (<[ "search_method" := column r "search_method" ]>
     (<[ "num_iterations" := column r "num_iterations" ]>
     (<[ "timeout_seconds" := column r "timeout_seconds" ]>
     (<[ "headless" := column r "headless" ]>
     (<[ "random_seed" := column r "random_seed" ]>
     (<[ "reward_function" := column r "reward_function" ]> ∅))))))))
    (Database.r_started_at rec)
    (Database.r_completed_at rec)
    (Database.r_error_message rec)
    (row_output_directory r)
    (if negb (is_none (Database.r_best_reward rec))
        || py_truth (Database.r_collision_found rec)
     then IsDict
            (<[ "current_iteration" := VInt 0 ]>
             (<[ "total_iterations" := column r "num_iterations" ]>
             (<[ "best_reward" := Database.r_best_reward rec ]>
             (<[ "collision_found" :=
                   if py_truth (Database.r_collision_found rec)
                   then Database.r_collision_found rec else VBool false ]>
             (<[ "elapsed_time" := VNone ]>
             (<[ "estimated_remaining" := VNone ]>
             (<[ "recent_rewards" := VFloats [] ]> ∅)))))))
     else IsNone).

(** The loop over the rows; a row without id is passed over.  [rows] is
    what [list_experiment_records(limit=1000)] gave; when it raised,
    nothing is loaded. *)
Definition _load_experiments_from_database (rows : outcome (list row)) (svc : service)
  : service :=
  match rows with
  | Raised _ => svc
  | Returned l =>
      fold_left
        (fun s r =>
           if String.eqb (row_id r) "" then s
           else with_status_map (<[ row_id r := status_of_row r ]> (experiment_status s)) s)
        l svc
  end.

(** [ExperimentService.__init__] *)
Definition new_service (table : gmap string Database.ExperimentRecord)
    (up : bool) (rows : outcome (list row)) : service :=
  _load_experiments_from_database rows (mk_service ∅ ∅ table up).

(** ** Fixtures for the properties below *)

(** A stream with a blank line, lines of all three kinds, a line that
    cannot be decoded, and a line after it. *)
Definition sample_stream : list (outcome string) :=
  [ Returned (String (ascii_of_nat 10) "");
    Returned ("Iteration 2/20" ++ String (ascii_of_nat 10) "");
    Returned ("  Best reward: 3.5 (delta 0.1)" ++ String (ascii_of_nat 10) "");
    Raised (ValueError "'utf-8' codec can't decode byte 0xff in position 0");
    Returned ("Iteration 9/20" ++ String (ascii_of_nat 10) "") ].

Definition record_status (svc : service) (experiment_id : string) : option string :=
  Database.r_status <$> records svc !! experiment_id.

Definition record_error_message (svc : service) (experiment_id : string) : option value :=
  Database.r_error_message <$> records svc !! experiment_id.

(** The same registry and tasks over another store. *)
Definition over_store (table : gmap string Database.ExperimentRecord) (up : bool)
    (svc : service) : service :=
  mk_service (active_experiments svc) (experiment_status svc) table up.


(** The keyword arguments name none of [keys]. *)
Definition names_none (keys : list string) (kwargs : kwargs_t) : bool :=
  forallb (fun kv => negb (existsb (String.eqb (fst kv)) keys)) kwargs.



(** The job is recorded in memory as failed at time [now] with the
    message [msg], and has no task any more. *)
Definition recorded_failed (svc : service) (experiment_id msg : string) (now : datetime)
  : Prop :=
  job_status svc experiment_id = Some "failed"
  /\ job_error_message svc experiment_id = Some (VStr msg)
  /\ job_completed_at svc experiment_id = Some (Some now)
  /\ active_experiments svc !! experiment_id = None.

(** The status dictionary of a job just created. *)
Definition created_job (experiment_id output_root : string) (config : gmap string value)
  : status_dict :=
  mk_status_dict "created" config None None VNone
    (Some (Path.to_string
             (Path.truediv (Path.of_string output_root) ("experiment_" ++ experiment_id))))
    IsNone.

(** An empty service over an empty store that can be reached. *)
Definition empty_service : service := mk_service ∅ ∅ ∅ true.

(** A [shutil.rmtree] that succeeds. *)
Definition rmtree_ok (p : Path.t) : outcome unit := Returned tt.
(** ** The primitives on sample inputs *)

Example split_marker :
  Str.split "Best reward:" "Best reward: 3.5 (delta 0.1)" = [""; " 3.5 (delta 0.1)"].
Proof. reflexivity. Qed.

Example split_ws_line :
  Str.split_ws "  Iteration 7/20  done " = ["Iteration"; "7/20"; "done"].
Proof. reflexivity. Qed.

Example strip_line : Str.strip "  3.5 (x)  " = "3.5 (x)".
Proof. reflexivity. Qed.

Example float_3_5 : Num.py_float "3.5" = Returned (S754_finite false 7881299347898368 (-51)).
Proof. vm_compute. reflexivity. Qed.

Example float_0_1 : Num.py_float "0.1" = Returned (S754_finite false 7205759403792794 (-56)).
Proof. vm_compute. reflexivity. Qed.

Example float_big : Num.py_float "1e400" = Returned (S754_infinity false).
Proof. vm_compute. reflexivity. Qed.

Example float_neg : Num.py_float "-1_0.25e1" = Returned (S754_finite true 7212796278210560 (-46)).
Proof. vm_compute. reflexivity. Qed.

Example float_bad : Num.py_float "(delta" = Raised (ValueError "could not convert string to float").
Proof. vm_compute. reflexivity. Qed.

Example int_7 : Num.py_int "7" = Returned 7.
Proof. vm_compute. reflexivity. Qed.

Example int_bad : Num.py_int "" = Raised (ValueError "invalid literal for int() with base 10").
Proof. vm_compute. reflexivity. Qed.

Example line_with_two_markers :
  parse_line "Best reward: Best reward: 3.5" = Raised IndexError.
Proof. vm_compute. reflexivity. Qed.

Example line_without_number :
  parse_line "Best reward: n/a" = Raised (ValueError "could not convert string to float").
Proof. vm_compute. reflexivity. Qed.

Example line_with_collision :
  parse_line "Collision Found at step 12"
  = Returned (mk_parsed None true 0).
Proof. vm_compute. reflexivity. Qed.

(** ** Facts about the string primitives *)

Section StringFacts.

Lemma cut_contains sep s a b :
  Str.cut sep s = Some (a, b) -> Str.contains sep s = true.
Proof.
  revert a b. induction s as [|c s IH]; intros a b; simpl.
  - destruct (Str.startswith sep ""); [reflexivity | discriminate].
  - destruct (Str.startswith sep (String c s)); [reflexivity |].
    destruct (Str.cut sep s) as [[a' b']|] eqn:E; [|discriminate].
    intros _. simpl. eapply IH. reflexivity.
Qed.

Lemma contains_cut sep s :
  Str.contains sep s = true -> exists a b, Str.cut sep s = Some (a, b).
Proof.
  induction s as [|c s IH]; simpl.
  - destruct (Str.startswith sep ""); [eauto | discriminate].
  - destruct (Str.startswith sep (String c s)); [eauto |].
    simpl. intros H. destruct (IH H) as (a & b & ->). eauto.
Qed.

(** A separator that occurs once splits the string in two. *)
Lemma split_once sep s a b :
  Str.cut sep s = Some (a, b) -> Str.cut sep b = None ->
  Str.split sep s = [a; b].
Proof.
  intros Hs Hb. unfold Str.split.
  destruct (String.length s) as [|n] eqn:Hlen; simpl.
  - destruct s; [|discriminate]. simpl in Hs.
    destruct (Str.startswith sep "") eqn:E; [|discriminate].
    inversion Hs; subst. destruct sep; [|discriminate].
    simpl in Hb. discriminate.
  - rewrite Hs. f_equal. destruct n; simpl; [reflexivity|]. now rewrite Hb.
Qed.

Lemma startswith_length p s :
  Str.startswith p s = true -> (String.length p <= String.length s)%nat.
Proof.
  revert s. induction p as [|a p IH]; intros s; simpl; [lia|].
  destruct s as [|b s]; [discriminate|].
  intros [_ H]%andb_prop. apply IH in H. simpl. lia.
Qed.

Lemma drop_length n s :
  String.length (Str.drop n s) = (String.length s - n)%nat.
Proof.
  revert s. induction n as [|n IH]; intros s; simpl; [lia|].
  destruct s as [|c s]; simpl; [reflexivity|]. apply IH.
Qed.

(** What follows a separator is shorter than the whole text. *)
Lemma cut_shorter sep s a b :
  Str.cut sep s = Some (a, b) ->
  (String.length b + String.length sep <= String.length s)%nat.
Proof.
  revert a b. induction s as [|c s IH]; intros a b.
  - simpl. destruct (Str.startswith sep "") eqn:E; [|discriminate].
    intros [= <- <-]. apply startswith_length in E.
    rewrite drop_length. change (String.length "") with 0%nat in *. lia.
  - cbn [Str.cut]. destruct (Str.startswith sep (String c s)) eqn:E.
    + intros [= <- <-]. apply startswith_length in E.
      rewrite drop_length. lia.
    + destruct (Str.cut sep s) as [[a' b']|]; [|discriminate].
      intros [= <- <-]. specialize (IH _ _ eq_refl). simpl. lia.
Qed.

Lemma split_fuel_stable sep s n m :
  sep <> "" -> (String.length s <= n)%nat -> (String.length s <= m)%nat ->
  Str.split_fuel n sep s = Str.split_fuel m sep s.
Proof.
  intros Hsep. revert s m. induction n as [|n IH]; intros s m Hn Hm.
  - destruct s; [|simpl in Hn; lia].
    destruct m; simpl; [reflexivity|]. destruct sep; [congruence|reflexivity].
  - destruct m as [|m].
    + destruct s; [|simpl in Hm; lia]. simpl.
      destruct sep; [congruence|reflexivity].
    + simpl. destruct (Str.cut sep s) as [[a b]|] eqn:E; [|reflexivity].
      f_equal. apply cut_shorter in E.
      assert (0 < String.length sep)%nat by (destruct sep; [congruence|simpl; lia]).
      apply IH; lia.
Qed.

(** The fuel of [Str.split] is enough: more fuel gives the same pieces. *)
Lemma split_fuel_enough sep s n :
  sep <> "" -> (String.length s <= n)%nat ->
  Str.split_fuel n sep s = Str.split sep s.
Proof.
  intros Hsep Hn. unfold Str.split. apply split_fuel_stable; auto.
Qed.

Lemma rstrip_cons c s :
  Str.rstrip (String c s) =
  match Str.rstrip s with
  | EmptyString => if Str.is_space c then EmptyString else String c EmptyString
  | r => String c r
  end.
Proof. reflexivity. Qed.

Lemma word_cons c s :
  Str.word (String c s) = if Str.is_space c then EmptyString else String c (Str.word s).
Proof. reflexivity. Qed.

Lemma split_ws_aux_cons b c s :
  Str.split_ws_aux b (String c s) =
  if Str.is_space c then Str.split_ws_aux false s
  else if b then Str.split_ws_aux true s
       else Str.word (String c s) :: Str.split_ws_aux true s.
Proof. reflexivity. Qed.

Lemma word_rstrip s : Str.word (Str.rstrip s) = Str.word s.
Proof.
  induction s as [|c s IH]; [reflexivity|].
  rewrite rstrip_cons, (word_cons c s), <- IH.
  destruct (Str.rstrip s) as [|c' r].
  - destruct (Str.is_space c) eqn:Ec; [reflexivity|].
    rewrite word_cons, Ec. reflexivity.
  - rewrite word_cons. reflexivity.
Qed.

Lemma split_ws_aux_rstrip b s :
  Str.split_ws_aux b (Str.rstrip s) = Str.split_ws_aux b s.
Proof.
  revert b. induction s as [|c s IH]; intros b; [reflexivity|].
  rewrite (split_ws_aux_cons b c s), <- (word_rstrip (String c s)), <- !IH.
  rewrite rstrip_cons.
  destruct (Str.rstrip s) as [|c' r].
  - destruct (Str.is_space c) eqn:Ec; [reflexivity|].
    rewrite split_ws_aux_cons, Ec. reflexivity.
  - rewrite split_ws_aux_cons. reflexivity.
Qed.

Lemma split_ws_lstrip s : Str.split_ws (Str.lstrip s) = Str.split_ws s.
Proof.
  unfold Str.split_ws. induction s as [|c s IH]; [reflexivity|]. simpl.
  destruct (Str.is_space c) eqn:Ec; [exact IH|]. simpl. now rewrite Ec.
Qed.

(** Stripping a text does not change its words. *)
Lemma split_ws_strip s : Str.split_ws (Str.strip s) = Str.split_ws s.
Proof.
  unfold Str.strip. rewrite <- (split_ws_lstrip s).
  apply split_ws_aux_rstrip.
Qed.

End StringFacts.

(** ** Facts about the progress parser *)

Section ParserFacts.

Implicit Types (svc : service) (sd : status_dict) (p : parsed).

Lemma index_raises {A} (l : list A) i e : index l i = Raised e -> caught e.
Proof. unfold index. destruct (l !! i); [discriminate|]. now intros [= <-]. Qed.

Lemma py_int_raises s e : Num.py_int s = Raised e -> caught e.
Proof.
  unfold Num.py_int. destruct (Num.read_sign _) as [neg body].
  destruct (Num.underscores_ok _ _); [|now intros [= <-]].
  destruct (Num.read_digits _ _ _) as [[v [|n]] [|c r]];
    try discriminate; now intros [= <-].
Qed.

Lemma py_float_raises s e : Num.py_float s = Raised e -> caught e.
Proof.
  unfold Num.py_float.
  destruct (Num.underscores_ok _ _); [|now intros [= <-]].
  destruct (Num.read_sign _) as [neg body].
  destruct (_ || _); [discriminate|].
  destruct (String.eqb _ _); [discriminate|].
  destruct (Num.read_decimal body) as [[m e10]|]; [discriminate|].
  now intros [= <-].
Qed.

Lemma iteration_loop_raises parts e : iteration_loop parts = Raised e -> caught e.
Proof.
  induction parts as [|part rest IH]; [discriminate|].
  cbn [iteration_loop]. destruct (String.eqb part "Iteration"); [|exact IH].
  destruct rest as [|iter_part rest']; [exact IH|].
  destruct (Str.contains "/" iter_part); [|exact IH].
  unfold bind. destruct (index _ _) as [h|e'] eqn:E.
  - apply py_int_raises.
  - intros [= <-]. eapply index_raises, E.
Qed.

Lemma parse_line_raises line e : parse_line line = Raised e -> caught e.
Proof.
  unfold parse_line, bind.
  destruct (Str.contains "Best reward:" line).
  - destruct (index (Str.split _ _) 1) as [piece|e1] eqn:E1;
      [|intros [= <-]; eapply index_raises, E1].
    destruct (index (Str.split_ws _) 0) as [tok|e2] eqn:E2;
      [|intros [= <-]; eapply index_raises, E2].
    destruct (Num.py_float tok) as [f|e3] eqn:E3; [discriminate|].
    intros [= <-]; eapply py_float_raises, E3.
  - destruct (_ && _).
    + destruct (iteration_loop _) as [n|e1] eqn:E1; [discriminate|].
      intros [= <-]; eapply iteration_loop_raises, E1.
    + destruct (_ || _); discriminate.
Qed.

(** Parsing never raises into the reader of the stream. *)
Lemma parse_never_raises id line svc :
  fst (_parse_progress_info id line svc) = Returned tt.
Proof.
  unfold _parse_progress_info.
  destruct (parse_line line) as [p|e] eqn:E; [reflexivity|].
  apply parse_line_raises in E. destruct e; simpl in E; tauto || reflexivity.
Qed.

Lemma parse_progress_returned id line svc p :
  parse_line line = Returned p ->
  parse_progress id line svc = merge_progress id p svc.
Proof. unfold parse_progress, _parse_progress_info. now intros ->. Qed.

Lemma parse_progress_raised id line svc e :
  parse_line line = Raised e -> parse_progress id line svc = svc.
Proof.
  unfold parse_progress, _parse_progress_info. intros ->. now destruct e.
Qed.

Lemma progress_item_merge id p svc sd key :
  experiment_status svc !! id = Some sd ->
  progress_item (merge_progress id p svc) id key
  = merge_parsed p (progress_dict sd) !! key.
Proof.
  intros H. unfold progress_item, merge_progress. rewrite H. simpl.
  now rewrite lookup_insert_eq.
Qed.

Lemma merge_progress_other id id' p svc :
  id' <> id ->
  experiment_status (merge_progress id p svc) !! id' = experiment_status svc !! id'.
Proof.
  intros H. unfold merge_progress.
  destruct (experiment_status svc !! id); [|reflexivity].
  simpl. now rewrite lookup_insert_ne.
Qed.

Lemma merge_progress_known id p svc sd :
  experiment_status svc !! id = Some sd ->
  experiment_status (merge_progress id p svc) !! id
  = Some (set_progress (IsDict (merge_parsed p (progress_dict sd))) sd).
Proof.
  intros H. unfold merge_progress. rewrite H. simpl. now rewrite lookup_insert_eq.
Qed.

(** The three keys that a merge may write. *)
Lemma merge_parsed_best_reward p d :
  merge_parsed p d !! "best_reward"
  = match p_best_reward p with Some r => Some (VFloat r) | None => d !! "best_reward" end.
Proof.
  unfold merge_parsed.
  destruct (0 <? _), (p_collision_found p), (p_best_reward p);
    now simplify_map_eq.
Qed.

Lemma merge_parsed_collision_found p d :
  merge_parsed p d !! "collision_found"
  = if p_collision_found p then Some (VBool true) else d !! "collision_found".
Proof.
  unfold merge_parsed.
  destruct (0 <? _), (p_collision_found p), (p_best_reward p);
    now simplify_map_eq.
Qed.

Lemma merge_parsed_current_iteration p d :
  merge_parsed p d !! "current_iteration"
  = if 0 <? p_current_iteration p then Some (VInt (p_current_iteration p))
    else d !! "current_iteration".
Proof.
  unfold merge_parsed.
  destruct (0 <? _), (p_collision_found p), (p_best_reward p);
    now simplify_map_eq.
Qed.

Lemma merge_parsed_frame p d key :
  key <> "best_reward" -> key <> "collision_found" -> key <> "current_iteration" ->
  merge_parsed p d !! key = d !! key.
Proof.
  intros. unfold merge_parsed.
  destruct (0 <? _), (p_collision_found p), (p_best_reward p);
    now simplify_map_eq.
Qed.

(** A line with the reward marker either is dropped or yields a reward
    and nothing else: the other two branches are not tried. *)
Lemma parse_line_marker line :
  Str.contains "Best reward:" line = true ->
  (exists e, parse_line line = Raised e) \/
  (exists r, parse_line line = Returned (mk_parsed (Some r) false 0)).
Proof.
  intros H. unfold parse_line, bind. rewrite H.
  destruct (index (Str.split _ _) 1); [|eauto].
  destruct (index (Str.split_ws _) 0); [|eauto].
  destruct (Num.py_float _); eauto.
Qed.

End ParserFacts.

(** ** The progress parser on the lines of the child process *)

Section ParserClaims.

Implicit Types (svc : service) (sd : status_dict) (line : string).

Lemma progress_item_merge_any id p svc key :
  progress_item (merge_progress id p svc) id key
  = match experiment_status svc !! id with
    | Some sd => merge_parsed p (progress_dict sd) !! key
    | None => None
    end.
Proof.
  destruct (experiment_status svc !! id) as [sd|] eqn:E.
  - now apply progress_item_merge.
  - unfold progress_item, merge_progress. now rewrite E, E.
Qed.

Lemma split_two_contains sep s a b l :
  Str.split sep s = a :: b :: l -> Str.contains sep s = true.
Proof.
  unfold Str.split. destruct (String.length s); simpl; [discriminate|].
  destruct (Str.cut sep s) as [[a' b']|] eqn:E; [|discriminate].
  intros _. eapply cut_contains, E.
Qed.

(** The locals after a line whose first marker is followed by a token
    that reads as a float. *)
Lemma parse_line_reward line before piece pieces token rest r :
  Str.split "Best reward:" line = before :: piece :: pieces ->
  Str.split_ws piece = token :: rest ->
  Num.py_float token = Returned r ->
  parse_line line = Returned (mk_parsed (Some r) false 0).
Proof.
  intros Hsplit Hws Hf. unfold parse_line.
  rewrite (split_two_contains _ _ _ _ _ Hsplit), Hsplit.
  unfold index at 1. cbn [lookup list_lookup bind].
  rewrite split_ws_strip, Hws. unfold index. cbn [lookup list_lookup bind].
  now rewrite Hf.
Qed.

(** C7: for a known job, a line in which the marker ["Best reward:"] is
    followed by a token that reads as a number makes the parser set the
    job's [best_reward] to that number.  [piece] is the text from the
    marker to the next marker or the end of the line, [token] its first
    word. *)
Theorem parse_best_reward svc id sd line before piece pieces token rest r :
  experiment_status svc !! id = Some sd ->
  Str.split "Best reward:" line = before :: piece :: pieces ->
  Str.split_ws piece = token :: rest ->
  Num.py_float token = Returned r ->
  _parse_progress_info id line svc
    = (Returned tt, merge_progress id (mk_parsed (Some r) false 0) svc)
  /\ progress_item (parse_progress id line svc) id "best_reward" = Some (VFloat r).
Proof.
  intros Hid Hsplit Hws Hf.
  pose proof (parse_line_reward _ _ _ _ _ _ _ Hsplit Hws Hf) as Hp.
  split.
  - unfold _parse_progress_info. now rewrite Hp.
  - rewrite (parse_progress_returned _ _ _ _ Hp).
    rewrite (progress_item_merge _ _ _ _ _ Hid), merge_parsed_best_reward.
    reflexivity.
Qed.

Lemma parse_best_reward_witness :
  experiment_status svc0 !! "e1" = Some fresh_job
  /\ Num.py_float "3.5" = Returned three_and_a_half
  /\ progress_item (parse_progress "e1" "Best reward: 3.5 (delta ...)" svc0)
       "e1" "best_reward" = Some (VFloat three_and_a_half).
Proof.
  split; [reflexivity|]. split; [vm_compute; reflexivity|].
  apply (parse_best_reward svc0 "e1" fresh_job "Best reward: 3.5 (delta ...)"
           "" " 3.5 (delta ...)" [] "3.5" ["(delta"; "...)"] three_and_a_half);
    vm_compute; reflexivity.
Defined.

(** C8: for a known job, the line ["Iteration 7/20"] makes the parser
    set the job's [current_iteration] to 7 and leaves its [best_reward]
    as it was (absent when no reward line was seen). *)
Theorem parse_iteration_7_of_20 svc id sd :
  experiment_status svc !! id = Some sd ->
  progress_item (parse_progress id "Iteration 7/20" svc) id "current_iteration"
    = Some (VInt 7)
  /\ progress_item (parse_progress id "Iteration 7/20" svc) id "best_reward"
    = progress_item svc id "best_reward".
Proof.
  intros Hid.
  assert (Hp : parse_line "Iteration 7/20" = Returned (mk_parsed None false 7))
    by (vm_compute; reflexivity).
  rewrite (parse_progress_returned _ _ _ _ Hp).
  rewrite !(progress_item_merge _ _ _ _ _ Hid).
  rewrite merge_parsed_current_iteration, merge_parsed_best_reward.
  split; [reflexivity|]. unfold progress_item. now rewrite Hid.
Qed.

Lemma parse_iteration_7_of_20_witness :
  experiment_status svc0 !! "e1" = Some fresh_job
  /\ progress_item svc0 "e1" "best_reward" = None
  /\ progress_item (parse_progress "e1" "Iteration 7/20" svc0) "e1" "current_iteration"
     = Some (VInt 7)
  /\ progress_item (parse_progress "e1" "Iteration 7/20" svc0) "e1" "best_reward"
     = progress_item svc0 "e1" "best_reward".
Proof.
  split; [reflexivity|]. split; [reflexivity|].
  apply (parse_iteration_7_of_20 svc0 "e1" fresh_job). reflexivity.
Defined.

(** C10: a line that contains ["Best reward:"] changes no entry of the
    job's progress other than [best_reward]; in particular
    [current_iteration] and [collision_found] stay as they were, also
    when the line matches the iteration pattern or holds a collision
    marker, because the three tests are tried in turn, reward first. *)
Theorem reward_line_frame svc id line :
  Str.contains "Best reward:" line = true ->
  progress_item (parse_progress id line svc) id "current_iteration"
    = progress_item svc id "current_iteration"
  /\ progress_item (parse_progress id line svc) id "collision_found"
    = progress_item svc id "collision_found"
  /\ forall key, key <> "best_reward" ->
       progress_item (parse_progress id line svc) id key = progress_item svc id key.
Proof.
  intros Hm.
  assert (H : forall key, key <> "best_reward" ->
            progress_item (parse_progress id line svc) id key = progress_item svc id key).
  { intros key Hkey.
    destruct (parse_line_marker line Hm) as [[e He]|[r Hr]].
    - now rewrite (parse_progress_raised _ _ _ _ He).
    - rewrite (parse_progress_returned _ _ _ _ Hr), progress_item_merge_any.
      unfold progress_item. destruct (experiment_status svc !! id); [|reflexivity].
      unfold merge_parsed. simpl. now rewrite lookup_insert_ne. }
  split; [|split]; [apply H; discriminate | apply H; discriminate | exact H].
Qed.

Lemma reward_line_frame_witness :
  Str.contains "Best reward:" mixed_line = true
  /\ progress_item svc_at_7 "e1" "current_iteration" = Some (VInt 7)
  /\ progress_item svc_at_7 "e1" "collision_found" = None
  /\ progress_item (parse_progress "e1" mixed_line svc_at_7) "e1" "current_iteration"
     = progress_item svc_at_7 "e1" "current_iteration"
  /\ progress_item (parse_progress "e1" mixed_line svc_at_7) "e1" "collision_found"
     = progress_item svc_at_7 "e1" "collision_found".
Proof.
  split; [reflexivity|]. split; [vm_compute; reflexivity|].
  split; [vm_compute; reflexivity|].
  destruct (reward_line_frame svc_at_7 "e1" mixed_line) as (H1 & H2 & _);
    [reflexivity|]. split; [exact H1 | exact H2].
Defined.

End ParserClaims.

(** ** Progress within a run *)

Section ProgressClaims.

Implicit Types (svc : service) (sd : status_dict) (line : string).


(** One merge: the entry takes what the line tells, and stays when the
    line tells nothing. *)
Lemma parse_step_iteration id line svc sd :
  experiment_status svc !! id = Some sd ->
  progress_item (parse_progress id line svc) id "current_iteration"
  = match line_iteration line with
    | Some x => Some x
    | None => progress_item svc id "current_iteration"
    end.
Proof.
  intros Hid. unfold line_iteration.
  destruct (parse_line line) as [p|e] eqn:E.
  - rewrite (parse_progress_returned _ _ _ _ E).
    rewrite (progress_item_merge _ _ _ _ _ Hid), merge_parsed_current_iteration.
    unfold progress_item. rewrite Hid. now destruct (0 <? _).
  - now rewrite (parse_progress_raised _ _ _ _ E).
Qed.


(** The parser never clears the collision flag. *)
Lemma parse_keeps_collision_found id line svc :
  progress_item svc id "collision_found" = Some (VBool true) ->
  progress_item (parse_progress id line svc) id "collision_found" = Some (VBool true).
Proof.
  intros H. destruct (parse_line line) as [p|e] eqn:E.
  - rewrite (parse_progress_returned _ _ _ _ E), progress_item_merge_any.
    unfold progress_item in H.
    destruct (experiment_status svc !! id); [|discriminate].
    rewrite merge_parsed_collision_found. now destruct (p_collision_found p).
  - now rewrite (parse_progress_raised _ _ _ _ E).
Qed.

Lemma feed_keeps_collision_found id lines svc :
  progress_item svc id "collision_found" = Some (VBool true) ->
  progress_item (feed id lines svc) id "collision_found" = Some (VBool true).
Proof.
  revert svc. induction lines as [|line lines IH]; intros svc H; [exact H|].
  simpl. apply IH, parse_keeps_collision_found, H.
Qed.















(** C2: one turn of the polling loop writes the task's local
    [collision_found], which is still [False], over the flag of a known
    job, whatever the parser had recorded. *)
Theorem poll_resets_collision_found svc id sd elapsed_time :
  experiment_status svc !! id = Some sd ->
  progress_item (poll_timeout id elapsed_time svc) id "collision_found"
    = Some (VBool false)
  /\ progress_item (poll_timeout id elapsed_time svc) id "current_iteration"
    = Some (VInt 0)
  /\ progress_item (poll_timeout id elapsed_time svc) id "best_reward"
    = Some VNone.
Proof.
  intros Hid. unfold poll_timeout, progress_update, progress_item.
  rewrite Hid. cbn [experiment_status with_status_map].
  rewrite lookup_insert_eq. cbn [progress_dict progress set_progress].
  repeat split;
    repeat (rewrite lookup_insert_ne by discriminate);
    now rewrite lookup_insert_eq.
Qed.

Lemma poll_resets_collision_found_witness :
  experiment_status svc_collision !! "e1"
    = Some (set_progress (IsDict {[ "collision_found" := VBool true ]}) fresh_job)
  /\ progress_item svc_collision "e1" "collision_found" = Some (VBool true)
  /\ progress_item (poll_timeout "e1" three_and_a_half svc_collision) "e1" "collision_found"
     = Some (VBool false).
Proof.
  split; [vm_compute; reflexivity|]. split; [vm_compute; reflexivity|].
  apply (poll_resets_collision_found svc_collision "e1"
           (set_progress (IsDict {[ "collision_found" := VBool true ]}) fresh_job)
           three_and_a_half).
  vm_compute; reflexivity.
Defined.

End ProgressClaims.

(** ** Status updates and the lifecycle *)

Section LifecycleClaims.

Implicit Types (svc : service) (sd : status_dict) (st : ExperimentStatusEnum).

(** The loop over the keyword arguments writes [error_message] and
    [progress] only. *)
Lemma progress_setitem_frame key v sd sd' :
  progress_setitem key v sd = Returned sd' ->
  status sd' = status sd /\ started_at sd' = started_at sd
  /\ completed_at sd' = completed_at sd.
Proof.
  unfold progress_setitem. destruct (progress sd); intros [= <-]; auto.
Qed.

Lemma kwargs_loop_frame todo i n0 kwargs sd :
  let sd' := snd (kwargs_loop todo i n0 kwargs sd) in
  status sd' = status sd /\ started_at sd' = started_at sd
  /\ completed_at sd' = completed_at sd.
Proof.
  revert i kwargs sd. induction todo as [|todo IH]; intros i kwargs sd; simpl.
  - destruct (negb _); auto.
  - destruct (negb _); [auto|].
    destruct (kwargs !! i) as [[key v]|]; [|auto].
    destruct (String.eqb key "error_message");
      [exact (IH (S i) kwargs (set_error_message v sd))|].
    destruct (String.eqb key "final_reward").
    { destruct (progress_setitem _ _ _) as [sd1|e] eqn:E; [|auto].
      apply progress_setitem_frame in E as (E1 & E2 & E3).
      rewrite <- E1, <- E2, <- E3. apply IH. }
    destruct (String.eqb key "collision_found"); [|apply IH].
    destruct (progress_setitem _ _ _) as [sd1|e] eqn:E; [|auto].
    apply progress_setitem_frame in E as (E1 & E2 & E3).
    rewrite <- E1, <- E2, <- E3. apply IH.
Qed.

Lemma store_update_memory id s kwargs now svc :
  experiment_status (store_update id s kwargs now svc) = experiment_status svc
  /\ active_experiments (store_update id s kwargs now svc) = active_experiments svc.
Proof.
  unfold store_update. destruct (database_up svc); [|auto].
  destruct (Database.update_experiment_status _ _ _ _ _); auto.
Qed.

(** What a status update leaves in memory for a known job: the status
    and the timestamp are written whatever was there before, also when
    the loop over the keyword arguments raises. *)
Lemma update_status_known id st kwargs now svc sd :
  experiment_status svc !! id = Some sd ->
  exists sd',
    experiment_status (snd (_update_experiment_status id st kwargs now svc)) !! id
      = Some sd'
    /\ status sd' = enum_value st
    /\ started_at sd' = match st with RUNNING => Some now | _ => started_at sd end
    /\ completed_at sd' = if terminal st then Some now else completed_at sd.
Proof.
  intros Hid. unfold _update_experiment_status. rewrite Hid.
  pose proof (kwargs_loop_frame (length kwargs) 0 (length kwargs) kwargs
                (stamp st now (set_status (enum_value st) sd))) as Hf.
  destruct (kwargs_loop _ _ _ _ _) as [res sd2]. simpl in Hf.
  destruct Hf as (Hs & Hst & Hc).
  exists sd2. split.
  - destruct res; simpl.
    + destruct (store_update_memory id (enum_value st) (db_kwargs a) now
        (with_status_map (<[id:=sd2]> (experiment_status svc)) svc)) as [-> _].
      simpl. apply lookup_insert_eq.
    + apply lookup_insert_eq.
  - rewrite Hs, Hst, Hc. destruct st; auto.
Qed.

Lemma update_status_active id st kwargs now svc :
  active_experiments (snd (_update_experiment_status id st kwargs now svc))
  = active_experiments svc.
Proof.
  unfold _update_experiment_status.
  destruct (experiment_status svc !! id); [|reflexivity].
  destruct (kwargs_loop _ _ _ _ _) as [[kw|e] sd2]; simpl; [|reflexivity].
  now destruct (store_update_memory id (enum_value st) (db_kwargs kw) now
    (with_status_map (<[id:=sd2]> (experiment_status svc)) svc)) as [_ ->].
Qed.

Lemma update_status_no_kwargs id st now svc :
  fst (_update_experiment_status id st [] now svc) = Returned tt.
Proof.
  unfold _update_experiment_status.
  destruct (experiment_status svc !! id); reflexivity.
Qed.

(** [start_experiment], case by case. *)
Lemma start_unknown id now svc :
  experiment_status svc !! id = None ->
  start_experiment id now svc
  = (Raised (ValueError ("Experiment " ++ id ++ " not found")), svc).
Proof. unfold start_experiment. now intros ->. Qed.

Lemma start_already_running id now svc sd t :
  experiment_status svc !! id = Some sd ->
  active_experiments svc !! id = Some t ->
  start_experiment id now svc
  = (Raised (ValueError ("Experiment " ++ id ++ " is already running")), svc).
Proof. unfold start_experiment. now intros -> ->. Qed.

Lemma start_ok id now svc sd :
  experiment_status svc !! id = Some sd ->
  active_experiments svc !! id = None ->
  fst (start_experiment id now svc) = Returned tt
  /\ job_status (snd (start_experiment id now svc)) id = Some "running"
  /\ active_experiments (snd (start_experiment id now svc)) !! id = Some Pending.
Proof.
  intros Hid Hact. unfold start_experiment. rewrite Hid, Hact.
  pose proof (update_status_no_kwargs id RUNNING now svc) as Hr.
  destruct (update_status_known id RUNNING [] now svc sd Hid) as (sd' & Hk & Hs & _).
  destruct (_update_experiment_status id RUNNING [] now svc) as [res svc1].
  simpl in Hr, Hk. subst res. simpl. repeat split.
  - unfold job_status. simpl. rewrite Hk. simpl. now rewrite Hs.
  - apply lookup_insert_eq.
Qed.

(** [stop_experiment], case by case. *)
Lemma stop_not_running id now svc :
  active_experiments svc !! id = None ->
  stop_experiment id now svc
  = (Raised (ValueError ("Experiment " ++ id ++ " is not running")), svc).
Proof. unfold stop_experiment. now intros ->. Qed.

Lemma stop_pending id now svc sd :
  experiment_status svc !! id = Some sd ->
  active_experiments svc !! id = Some Pending ->
  fst (stop_experiment id now svc) = Returned tt
  /\ job_status (snd (stop_experiment id now svc)) id = Some "stopped"
  /\ active_experiments (snd (stop_experiment id now svc)) !! id = None.
Proof.
  intros Hid Hact. unfold stop_experiment. rewrite Hact. simpl. rewrite Hact.
  set (svc1 := with_active (delete id (active_experiments svc)) svc).
  assert (Hid1 : experiment_status svc1 !! id = Some sd) by exact Hid.
  destruct (update_status_known id STOPPED [] now svc1 sd Hid1) as (sd' & Hk & Hs & _).
  repeat split.
  - apply update_status_no_kwargs.
  - unfold job_status. rewrite Hk. simpl. now rewrite Hs.
  - rewrite update_status_active. apply lookup_delete_eq.
Qed.

(** C5: [stop_experiment] on a job whose task has started.  Awaiting
    the cancelled task runs the [finally] clause of the task, which
    removes the job from [active_experiments]; the [del] that follows
    in [stop_experiment] then raises [KeyError], and the status is
    never set to [stopped]. *)
Theorem stop_started_raises id now svc :
  active_experiments svc !! id = Some Started ->
  fst (stop_experiment id now svc) = Raised (KeyError id)
  /\ experiment_status (snd (stop_experiment id now svc)) = experiment_status svc
  /\ active_experiments (snd (stop_experiment id now svc)) !! id = None.
Proof.
  intros Hact. unfold stop_experiment. rewrite Hact.
  unfold cancel_and_await, finally_cleanup. simpl.
  rewrite lookup_delete_eq. simpl. repeat split. apply lookup_delete_eq.
Qed.

Lemma stop_started_raises_witness :
  active_experiments svc_running !! "e1" = Some Started
  /\ job_status svc_running "e1" = Some "running"
  /\ fst (stop_experiment "e1" 7 svc_running) = Raised (KeyError "e1")
  /\ experiment_status (snd (stop_experiment "e1" 7 svc_running))
     = experiment_status svc_running
  /\ active_experiments (snd (stop_experiment "e1" 7 svc_running)) !! "e1" = None.
Proof.
  split; [vm_compute; reflexivity|]. split; [vm_compute; reflexivity|].
  apply (stop_started_raises "e1" 7 svc_running). vm_compute; reflexivity.
Defined.

(** The end of a run whose child exits with code 0.  The update to
    [completed] passes [final_reward]; the loop over the keyword
    arguments then either assigns into a [progress] that is still [None]
    or adds ["best_reward"] to the dictionary it iterates, and raises in
    both cases; the handler of the task records the job as failed. *)
Example exit_0_without_progress :
  fst (_update_experiment_status "e1" COMPLETED
         [("final_reward", VNone); ("collision_found", VBool false)] 9 svc_running)
    = Raised (TypeError "'NoneType' object does not support item assignment")
  /\ job_status (snd (task_exit "e1" 0 None 9 svc_running)) "e1" = Some "failed"
  /\ active_experiments (snd (task_exit "e1" 0 None 9 svc_running)) !! "e1" = None.
Proof. vm_compute. repeat split. Qed.

Example exit_0_with_progress :
  fst (_update_experiment_status "e1" COMPLETED
         [("final_reward", VFloat three_and_a_half); ("collision_found", VBool false)]
         9 svc_running_at_7)
    = Raised (RuntimeError "dictionary changed size during iteration")
  /\ job_status (snd (task_exit "e1" 0 (Some (Returned sample_results)) 9 svc_running_at_7))
       "e1" = Some "failed"
  /\ job_error_message
       (snd (task_exit "e1" 0 (Some (Returned sample_results)) 9 svc_running_at_7)) "e1"
     = Some (VStr "dictionary changed size during iteration")
  /\ progress_item
       (snd (task_exit "e1" 0 (Some (Returned sample_results)) 9 svc_running_at_7))
       "e1" "best_reward" = Some (VFloat three_and_a_half).
Proof. vm_compute. repeat split. Qed.

End LifecycleClaims.

Section TransitionClaims.

Implicit Types (svc : service) (sd : status_dict) (st : ExperimentStatusEnum).




(** The assignments of keyword arguments leave alone the timestamps
    that they do not name, and the primary key unless they name it. *)
Lemma setattrs_frame kwargs rec pk rec' pk' :
  Database.setattrs kwargs (rec, pk) = Returned (rec', pk') ->
  ((forall v, ("started_at", v) ∉ kwargs) ->
     Database.r_started_at rec' = Database.r_started_at rec)
  /\ ((forall v, ("completed_at", v) ∉ kwargs) ->
     Database.r_completed_at rec' = Database.r_completed_at rec)
  /\ ((forall v, ("id", v) ∉ kwargs) -> pk' = pk)
  /\ Database.r_status rec' = Database.r_status rec.
Proof.
  revert rec pk. induction kwargs as [|[key v] kwargs IH]; intros rec pk.
  - cbn. intros [= -> ->]. auto.
  - cbn [Database.setattrs]. destruct (Database.setattr (rec, pk) (key, v)) as [[rec1 pk1]|e] eqn:E;
      cbn [bind]; [|discriminate].
    intros H. destruct (IH _ _ H) as (Hs & Hc & Hp & Hst).
    assert (Hrest : forall k, (forall w, (k, w) ∉ (key, v) :: kwargs) ->
              key <> k /\ forall w, (k, w) ∉ kwargs).
    { intros k Hk. split.
      - intros ->. apply (Hk v). left.
      - intros w Hw. apply (Hk w). now right. }
    unfold Database.setattr in E.
    repeat match type of E with
    | (if String.eqb key ?k then _ else _) = _ =>
        destruct (String.eqb_spec key k) as [->|?]
    end;
    repeat match type of E with
    | bind ?m _ = _ => destruct m; cbn [bind] in E; [|discriminate]
    end;
    injection E as <- <-;
    (split; [|split; [|split]]);
    try (intros Hk; destruct (Hrest _ Hk) as [Hne Hk']; try congruence;
         first [rewrite (Hs Hk')|rewrite (Hc Hk')|rewrite (Hp Hk')]; reflexivity);
    rewrite Hst; reflexivity.
Qed.


(** C4: in memory, a status update of a known job writes [started_at]
    on every update to [running] and [completed_at] on every update to
    a terminal status, whatever was recorded before: the timestamps are
    not kept from the first transition. *)
Theorem memory_timestamps_overwritten id st kwargs now svc sd :
  experiment_status svc !! id = Some sd ->
  (st = RUNNING ->
   job_started_at (snd (_update_experiment_status id st kwargs now svc)) id
     = Some (Some now))
  /\ (terminal st = true ->
   job_completed_at (snd (_update_experiment_status id st kwargs now svc)) id
     = Some (Some now)).
Proof.
  intros Hid.
  destruct (update_status_known id st kwargs now svc sd Hid) as (sd' & Hk & _ & Hs & Hc).
  unfold job_started_at, job_completed_at. rewrite Hk. simpl. split.
  - intros ->. now rewrite Hs.
  - intros Ht. now rewrite Hc, Ht.
Qed.

Lemma memory_timestamps_overwritten_witness :
  experiment_status svc_failed !! "e1"
    = Some (mk_status_dict "failed" {[ "num_iterations" := VInt 20 ]} (Some 5) (Some 9)
              (VStr "Experiment subprocess failed with return code 1")
              (Some "/out/experiment_e1") IsNone)
  /\ record_started_at svc_failed "e1" = Some (Some 5)
  /\ record_completed_at svc_failed "e1" = Some (Some 9)
  /\ record_started_at (snd (_update_experiment_status "e1" RUNNING [] 20 svc_failed)) "e1"
     = Some (Some 5)
  /\ record_completed_at (snd (_update_experiment_status "e1" STOPPED [] 30 svc_failed)) "e1"
     = Some (Some 9)
  /\ job_started_at (snd (_update_experiment_status "e1" RUNNING [] 20 svc_failed)) "e1"
     = Some (Some 20)
  /\ job_completed_at (snd (_update_experiment_status "e1" STOPPED [] 30 svc_failed)) "e1"
     = Some (Some 30).
Proof.
  split; [vm_compute; reflexivity|].
  split; [vm_compute; reflexivity|].
  split; [vm_compute; reflexivity|].
  split; [vm_compute; reflexivity|].
  split; [vm_compute; reflexivity|].
  split.
  - refine (proj1 (memory_timestamps_overwritten "e1" RUNNING [] 20 svc_failed _ _) _);
      [vm_compute|]; reflexivity.
  - refine (proj2 (memory_timestamps_overwritten "e1" STOPPED [] 30 svc_failed _ _) _);
      [vm_compute|]; reflexivity.
Defined.

End TransitionClaims.

(** ** Results and files of a job *)

Section FileClaims.

Implicit Types (fs : filesystem) (svc : service) (sd : status_dict).

Lemma insert_sorted_perm x l : Permutation (insert_sorted x l) (x :: l).
Proof.
  induction l as [|y l IH]; simpl; [reflexivity|].
  destruct (String.leb x y); [reflexivity|].
  rewrite IH. apply perm_swap.
Qed.

(** [sorted] keeps the names and puts them in order. *)
Lemma sorted_perm l : Permutation (sorted l) l.
Proof.
  induction l as [|x l IH]; simpl; [reflexivity|].
  now rewrite insert_sorted_perm, IH.
Qed.

Lemma insert_sorted_sorted x l :
  Sorted (fun a b => String.leb a b = true) l ->
  Sorted (fun a b => String.leb a b = true) (insert_sorted x l).
Proof.
  induction 1 as [|y l Hs IH Hhd]; simpl; [repeat constructor|].
  destruct (String.leb x y) eqn:E.
  - constructor; [constructor; assumption | constructor; exact E].
  - constructor; [exact IH|].
    assert (Hyx : String.leb y x = true)
      by (destruct (String.leb_total x y); congruence).
    destruct Hhd as [|z l Hyz]; simpl; [constructor; exact Hyx|].
    destruct (String.leb x z); constructor; assumption.
Qed.

Lemma sorted_sorted l : Sorted (fun a b => String.leb a b = true) (sorted l).
Proof.
  induction l as [|x l IH]; simpl; [constructor|].
  apply insert_sorted_sorted, IH.
Qed.

(** The listing of an output directory. *)
Lemma list_result_files_missing fs dir :
  fs_exists fs dir = Returned false -> _list_result_files fs dir = Returned [].
Proof. unfold _list_result_files. now intros ->. Qed.

Lemma regular_files_returned fs dir names :
  Forall (answers fs dir) names ->
  regular_files fs dir names = Returned (List.filter (regular fs dir) names).
Proof.
  induction 1 as [|n names [b Hb] _ IH]; [reflexivity|].
  cbn [regular_files List.filter]. unfold regular at 1. rewrite Hb, IH. reflexivity.
Qed.

Lemma regular_files_raised fs dir before n after e :
  Forall (answers fs dir) before ->
  fs_is_file fs (Path.truediv dir n) = Raised e ->
  regular_files fs dir (before ++ n :: after)%list = Raised e.
Proof.
  intros Hbefore Hn. induction Hbefore as [|m before [b Hb] _ IH].
  - cbn [app regular_files]. now rewrite Hn.
  - cbn [app regular_files]. now rewrite Hb, IH.
Qed.

Lemma list_result_files_present fs dir names :
  fs_exists fs dir = Returned true -> fs_iterdir fs dir = Returned names ->
  Forall (answers fs dir) names ->
  _list_result_files fs dir = Returned (sorted (List.filter (regular fs dir) names)).
Proof.
  unfold _list_result_files. intros -> -> H. cbn [bind negb].
  now rewrite (regular_files_returned _ _ _ H).
Qed.

Lemma results_no_artifact fs id svc sd :
  experiment_status svc !! id = Some sd ->
  fs_exists fs (Path.truediv (output_dir_of sd) "best_solution.json") = Returned false ->
  get_experiment_results fs id svc
  = let! files := _list_result_files fs (output_dir_of sd) in
    Returned (Some (empty_result id sd files)).
Proof.
  intros Hid Hart. unfold get_experiment_results, get_experiment.
  rewrite Hid, Hart. reflexivity.
Qed.

(** C9, as the code has it: for a known job whose output directory
    holds no [best_solution.json], the result has [total_iterations] 0,
    no [best_reward], [collision_found] false, and as file list the
    sorted names of the regular files of the output directory, which is
    empty when the directory does not exist.  This is the result
    whenever the directory can be looked at: when the check of the
    directory, its listing, or the check of one of its entries raises,
    the call raises that exception.  For an unknown id the answer is
    nothing. *)
Theorem results_without_artifact fs id svc sd :
  experiment_status svc !! id = Some sd ->
  fs_exists fs (Path.truediv (output_dir_of sd) "best_solution.json") = Returned false ->
  (fs_exists fs (output_dir_of sd) = Returned false ->
   get_experiment_results fs id svc = Returned (Some (empty_result id sd [])))
  /\ (forall names,
        fs_exists fs (output_dir_of sd) = Returned true ->
        fs_iterdir fs (output_dir_of sd) = Returned names ->
        Forall (answers fs (output_dir_of sd)) names ->
        get_experiment_results fs id svc
        = Returned (Some (empty_result id sd
            (sorted (List.filter (regular fs (output_dir_of sd)) names)))))
  /\ (forall e,
        fs_exists fs (output_dir_of sd) = Raised e ->
        get_experiment_results fs id svc = Raised e)
  /\ (forall e,
        fs_exists fs (output_dir_of sd) = Returned true ->
        fs_iterdir fs (output_dir_of sd) = Raised e ->
        get_experiment_results fs id svc = Raised e)
  /\ (forall before n after e,
        fs_exists fs (output_dir_of sd) = Returned true ->
        fs_iterdir fs (output_dir_of sd) = Returned (before ++ n :: after)%list ->
        Forall (answers fs (output_dir_of sd)) before ->
        fs_is_file fs (Path.truediv (output_dir_of sd) n) = Raised e ->
        get_experiment_results fs id svc = Raised e)
  /\ (forall id', experiment_status svc !! id' = None ->
        get_experiment_results fs id' svc = Returned None).
Proof.
  intros Hid Hart. rewrite (results_no_artifact _ _ _ _ Hid Hart).
  split; [|split; [|split; [|split; [|split]]]].
  - intros Hdir. now rewrite list_result_files_missing.
  - intros names Hdir Hnames Hall. now rewrite (list_result_files_present _ _ names).
  - intros e Hdir. unfold _list_result_files. now rewrite Hdir.
  - intros e Hdir Hnames. unfold _list_result_files. now rewrite Hdir, Hnames.
  - intros before n after e Hdir Hnames Hall Hn. unfold _list_result_files.
    rewrite Hdir, Hnames. cbn [bind negb].
    now rewrite (regular_files_raised _ _ _ _ _ _ Hall Hn).
  - intros id' Hid'. unfold get_experiment_results, get_experiment. now rewrite Hid'.
Qed.

Lemma results_without_artifact_witness :
  experiment_status svc0 !! "e1" = Some fresh_job
  /\ fs_exists (tree_fs sample_tree)
       (Path.truediv (output_dir_of fresh_job) "best_solution.json") = Returned false
  /\ fs_iterdir (tree_fs sample_tree) (output_dir_of fresh_job)
     = Returned ["experiment_config.json"; "a.log"]
  /\ List.filter (regular (tree_fs sample_tree) (output_dir_of fresh_job))
       ["experiment_config.json"; "a.log"]
     = ["experiment_config.json"; "a.log"]
  /\ get_experiment_results (tree_fs sample_tree) "e1" svc0
     = Returned (Some (empty_result "e1" fresh_job
         (sorted (List.filter (regular (tree_fs sample_tree) (output_dir_of fresh_job))
            ["experiment_config.json"; "a.log"])))).
Proof.
  split; [reflexivity|]. split; [vm_compute; reflexivity|].
  split; [vm_compute; reflexivity|]. split; [vm_compute; reflexivity|].
  refine (proj1 (proj2 (results_without_artifact (tree_fs sample_tree) "e1" svc0
                          fresh_job _ _)) _ _ _ _);
    [reflexivity | vm_compute; reflexivity | vm_compute; reflexivity
     | vm_compute; reflexivity |].
  repeat constructor; eexists; vm_compute; reflexivity.
Defined.

(** C9 as stated fails: with no [best_solution.json] in the output
    directory, the file list of the result is not empty when the
    directory holds other files. *)
Lemma results_list_other_files :
  fs_exists (tree_fs sample_tree)
    (Path.truediv (output_dir_of fresh_job) "best_solution.json") = Returned false
  /\ get_experiment_results (tree_fs sample_tree) "e1" svc0
     = Returned (Some (empty_result "e1" fresh_job ["a.log"; "experiment_config.json"]))
  /\ res_result_files (empty_result "e1" fresh_job ["a.log"; "experiment_config.json"])
     <> [].
Proof. split; [|split]; [vm_compute; reflexivity .. | discriminate]. Qed.

Lemma file_path_escapes fs id filename svc sd resolved_file resolved_dir :
  experiment_status svc !! id = Some sd ->
  fs_resolve fs (Path.truediv (output_dir_of sd) filename) = Returned resolved_file ->
  fs_resolve fs (output_dir_of sd) = Returned resolved_dir ->
  Path.is_relative_to resolved_file resolved_dir = false ->
  get_experiment_file_path fs id filename svc = Returned None.
Proof.
  intros Hid Hf Hd Hrel. unfold get_experiment_file_path, get_experiment, Path.relative_to.
  rewrite Hid, Hf, Hd. cbn [bind]. now rewrite Hrel.
Qed.

(** C6: for a known job and any file name, when the resolved path of
    the file is not under the resolved output directory the answer is
    nothing, whether or not a file exists there; and a path is returned
    only if it is the joined path, lies under the output directory and
    exists. *)
Theorem file_path_guard fs id filename svc sd :
  experiment_status svc !! id = Some sd ->
  (forall resolved_file resolved_dir,
     fs_resolve fs (Path.truediv (output_dir_of sd) filename) = Returned resolved_file ->
     fs_resolve fs (output_dir_of sd) = Returned resolved_dir ->
     Path.is_relative_to resolved_file resolved_dir = false ->
     get_experiment_file_path fs id filename svc = Returned None)
  /\ (forall p,
        get_experiment_file_path fs id filename svc = Returned (Some p) ->
        p = Path.truediv (output_dir_of sd) filename
        /\ fs_exists fs p = Returned true
        /\ exists resolved_file resolved_dir,
             fs_resolve fs p = Returned resolved_file
             /\ fs_resolve fs (output_dir_of sd) = Returned resolved_dir
             /\ Path.is_relative_to resolved_file resolved_dir = true).
Proof.
  intros Hid. split; [intros rf rd; now apply file_path_escapes|].
  unfold get_experiment_file_path, get_experiment, Path.relative_to.
  rewrite Hid. intros p.
  destruct (fs_resolve fs (Path.truediv _ _)) as [rf|e] eqn:Hf; cbn [bind];
    [|destruct e; discriminate].
  destruct (fs_resolve fs (output_dir_of sd)) as [rd|e] eqn:Hd; cbn [bind];
    [|destruct e; discriminate].
  destruct (Path.is_relative_to rf rd) eqn:Hrel; cbn [bind]; [|discriminate].
  destruct (fs_exists fs _) as [[|]|e] eqn:Hex; cbn [bind];
    [| discriminate | destruct e; discriminate].
  intros [= <-]. eauto 10.
Qed.

Lemma file_path_guard_witness :
  experiment_status svc0 !! "e1" = Some fresh_job
  /\ fs_resolve (tree_fs sample_tree) (Path.truediv (output_dir_of fresh_job) "../secret")
     = Returned (Path.mk 1 ["out"; "secret"])
  /\ fs_resolve (tree_fs sample_tree) (output_dir_of fresh_job)
     = Returned (Path.mk 1 ["out"; "experiment_e1"])
  /\ fs_exists (tree_fs sample_tree) (Path.truediv (output_dir_of fresh_job) "../secret")
     = Returned true
  /\ get_experiment_file_path (tree_fs sample_tree) "e1" "../secret" svc0 = Returned None.
Proof.
  split; [reflexivity|]. split; [vm_compute; reflexivity|].
  split; [vm_compute; reflexivity|]. split; [vm_compute; reflexivity|].
  refine (proj1 (file_path_guard (tree_fs sample_tree) "e1" "../secret" svc0
                   fresh_job _) _ _ _ _ _); vm_compute; reflexivity.
Defined.

(** In a tree without symbolic links: the name ["../secret"] is refused
    for every job whose output directory is not the root and is not
    itself called [secret], whatever the tree holds at that place. *)
Lemma normalize_app l l' :
  normalize (l ++ l')
  = fold_left (fun acc c => if String.eqb c ".." then removelast acc else (acc ++ [c])%list)
              l' (normalize l).
Proof. unfold normalize. apply fold_left_app. Qed.

Lemma is_prefix_last n x y :
  x <> y -> Path.is_prefix (n ++ [x]) (n ++ [y]) = false.
Proof.
  intros Hxy. induction n as [|a n IH]; simpl.
  - destruct (String.eqb_spec x y); [congruence|reflexivity].
  - rewrite IH. apply andb_false_r.
Qed.

Lemma absolute_dotdot t p name :
  name <> ".." ->
  absolute t (Path.mk (Path.root p) (Path.parts p ++ [".."; name]))
  = (removelast (absolute t p) ++ [name])%list.
Proof.
  intros Hname. unfold absolute. cbn [Path.root Path.parts].
  assert (Hn : String.eqb name ".." = false) by now apply String.eqb_neq.
  destruct (Path.root p).
  - rewrite app_assoc, normalize_app. simpl. now rewrite Hn.
  - rewrite normalize_app. simpl. now rewrite Hn.
Qed.

(** In a tree without symbolic links a file name is refused as soon as
    its folded path leaves the folded output directory. *)
Lemma tree_file_path_refused t id filename svc sd :
  experiment_status svc !! id = Some sd ->
  Path.is_prefix (absolute t (output_dir_of sd))
                 (absolute t (Path.truediv (output_dir_of sd) filename)) = false ->
  get_experiment_file_path (tree_fs t) id filename svc = Returned None.
Proof.
  intros Hid Hrel. unfold get_experiment_file_path, get_experiment.
  rewrite Hid. cbn [tree_fs fs_resolve].
  destruct (existsb has_null (Path.parts (Path.truediv _ _))); [reflexivity|].
  destruct (existsb has_null (Path.parts (output_dir_of sd))); [reflexivity|].
  cbn [bind]. unfold Path.relative_to, Path.is_relative_to.
  cbn [Path.root Path.parts Nat.eqb andb]. now rewrite Hrel.
Qed.

Lemma dotdot_secret_refused t id svc sd :
  experiment_status svc !! id = Some sd ->
  absolute t (output_dir_of sd) <> [] ->
  List.last (absolute t (output_dir_of sd)) "" <> "secret" ->
  get_experiment_file_path (tree_fs t) id "../secret" svc = Returned None.
Proof.
  intros Hid Hne Hlast.
  apply (tree_file_path_refused t id "../secret" svc sd Hid).
  unfold Path.truediv.
  change (Path.of_string "../secret") with (Path.mk 0 [".."; "secret"]).
  cbn [Path.root Path.parts].
  rewrite absolute_dotdot by discriminate.
  destruct (exists_last Hne) as (n & x & Hn). rewrite Hn in *.
  rewrite last_last in Hlast. rewrite removelast_last.
  now apply is_prefix_last.
Qed.

End FileClaims.

(** ** More facts about the string primitives *)

Section MoreStringFacts.

Lemma lstrip_head s c r : Str.lstrip s = String c r -> Str.is_space c = false.
Proof.
  induction s as [|a s IH]; simpl; [discriminate|].
  destruct (Str.is_space a) eqn:E; [exact IH|]. now intros [= <- _].
Qed.

Lemma rstrip_rstrip s : Str.rstrip (Str.rstrip s) = Str.rstrip s.
Proof.
  induction s as [|c s IH]; [reflexivity|].
  rewrite (rstrip_cons c s).
  destruct (Str.rstrip s) as [|c' r] eqn:E.
  - destruct (Str.is_space c) eqn:Ec; [reflexivity|].
    rewrite rstrip_cons. simpl. now rewrite Ec.
  - rewrite rstrip_cons, IH. reflexivity.
Qed.

Lemma lstrip_rstrip_head s c r :
  Str.is_space c = false -> s = String c r -> Str.lstrip (Str.rstrip s) = Str.rstrip s.
Proof.
  intros Hc ->. rewrite rstrip_cons.
  destruct (Str.rstrip r); rewrite ?Hc; simpl; rewrite ?Hc; reflexivity.
Qed.

(** Stripping twice is stripping once. *)
Lemma strip_idempotent s : Str.strip (Str.strip s) = Str.strip s.
Proof.
  unfold Str.strip.
  destruct (Str.lstrip s) as [|c r] eqn:E; [reflexivity|].
  rewrite (lstrip_rstrip_head (String c r) c r (lstrip_head _ _ _ E) eq_refl).
  apply rstrip_rstrip.
Qed.

End MoreStringFacts.

(** ** More on the parser and the readers of the child's streams *)

Section StreamFacts.

Implicit Types (svc : service) (sd : status_dict) (line : string).

(** X1: [_parse_progress_info] returns normally on every line and in
    every state, and a line that it cannot parse leaves the service as it
    was. *)
Theorem parse_progress_info_returns id line svc :
  fst (_parse_progress_info id line svc) = Returned tt
  /\ (forall e, parse_line line = Raised e ->
        snd (_parse_progress_info id line svc) = svc).
Proof.
  split; [apply parse_never_raises|].
  intros e He. exact (parse_progress_raised id line svc e He).
Qed.

Lemma merge_progress_fields id p svc :
  active_experiments (merge_progress id p svc) = active_experiments svc
  /\ records (merge_progress id p svc) = records svc
  /\ database_up (merge_progress id p svc) = database_up svc.
Proof.
  unfold merge_progress. destruct (experiment_status svc !! id); auto.
Qed.

(** X2: the parser writes nothing but the progress of the job it is
    called for: the tasks, the store, every other job, and the status,
    timestamps, error message and output directory of the job itself are
    as before; for an unknown job the whole service is as before. *)
Theorem parse_progress_frame id line svc :
  active_experiments (parse_progress id line svc) = active_experiments svc
  /\ records (parse_progress id line svc) = records svc
  /\ (forall id', id' <> id ->
        experiment_status (parse_progress id line svc) !! id'
        = experiment_status svc !! id')
  /\ (experiment_status svc !! id = None -> parse_progress id line svc = svc)
  /\ (forall sd, experiment_status svc !! id = Some sd ->
        exists pr, experiment_status (parse_progress id line svc) !! id
                   = Some (set_progress pr sd)).
Proof.
  destruct (parse_line line) as [p|e] eqn:E.
  - rewrite (parse_progress_returned _ _ _ _ E).
    destruct (merge_progress_fields id p svc) as (-> & -> & _).
    repeat split; auto.
    + intros id' Hne. now apply merge_progress_other.
    + intros Hid. unfold merge_progress. now rewrite Hid.
    + intros sd Hid. rewrite (merge_progress_known _ _ _ _ Hid). eauto.
  - rewrite (parse_progress_raised _ _ _ _ E). repeat split; auto.
    intros sd Hid. exists (progress sd). rewrite Hid. now destruct sd.
Qed.

(** The reader of a stream feeds the parser the stripped, non-empty
    lines that come before the first undecodable one. *)
Lemma read_stream_is_feed id lines svc :
  _read_stream id lines svc = (Returned tt, feed id (stream_lines lines) svc).
Proof.
  revert svc. induction lines as [|[line|e] lines IH]; intros svc;
    cbn [_read_stream stream_lines]; [reflexivity| |reflexivity].
  destruct (String.eqb (Str.strip line) ""); [apply IH|].
  pose proof (parse_never_raises id (Str.strip line) svc) as Hr.
  unfold feed. cbn [fold_left]. unfold parse_progress at 2.
  destruct (_parse_progress_info id (Str.strip line) svc) as [res svc'].
  simpl in Hr. subst res. apply IH.
Qed.

(** X5: reading a stream never raises, and leaves the service as the
    parser leaves it after the stripped, non-empty lines of the stream,
    in order, up to the first line that cannot be decoded; blank lines
    count for nothing. *)
Theorem read_stream_feed id lines svc :
  fst (_read_stream id lines svc) = Returned tt
  /\ snd (_read_stream id lines svc) = feed id (stream_lines lines) svc
  /\ Forall (fun l => l <> "" /\ Str.strip l = l) (stream_lines lines).
Proof.
  rewrite read_stream_is_feed. split; [reflexivity|]. split; [reflexivity|].
  induction lines as [|[line|e] lines IH]; cbn [stream_lines]; try constructor.
  destruct (String.eqb_spec (Str.strip line) ""); [exact IH|].
  constructor; [|exact IH]. split; [assumption|].
  apply strip_idempotent.
Qed.

(** X6: a line that cannot be decoded ends the reading of its stream:
    the lines after it are not parsed, whatever they hold. *)
Theorem read_stream_stops_at_undecodable id before e after svc :
  _read_stream id (before ++ Raised e :: after) svc = _read_stream id before svc.
Proof.
  revert svc. induction before as [|[line|e'] before IH]; intros svc;
    cbn [_read_stream app]; [reflexivity| |reflexivity].
  destruct (String.eqb (Str.strip line) ""); [apply IH|].
  destruct (_parse_progress_info id (Str.strip line) svc) as [[u|e'] svc'];
    [apply IH|reflexivity].
Qed.

(** X3: once the collision flag of a job is set, no stream of lines,
    whatever they hold, clears it. *)
Theorem read_stream_keeps_collision_found id lines svc :
  progress_item svc id "collision_found" = Some (VBool true) ->
  progress_item (snd (_read_stream id lines svc)) id "collision_found"
  = Some (VBool true).
Proof.
  intros H. rewrite read_stream_is_feed. simpl.
  now apply feed_keeps_collision_found.
Qed.

Lemma read_stream_keeps_collision_found_witness :
  progress_item svc_collision "e1" "collision_found" = Some (VBool true)
  /\ progress_item (snd (_read_stream "e1" sample_stream svc_collision))
       "e1" "collision_found" = Some (VBool true)
  /\ progress_item (snd (_read_stream "e1" sample_stream svc_collision))
       "e1" "current_iteration" = Some (VInt 2).
Proof.
  split; [vm_compute; reflexivity|].
  split; [|vm_compute; reflexivity].
  apply (read_stream_keeps_collision_found "e1" sample_stream svc_collision).
  vm_compute; reflexivity.
Defined.

(** X4: the parser records positive iteration numbers only: after a
    line, the iteration of a known job is either what it was or a number
    above zero. *)
Theorem parser_iteration_positive id line svc sd n :
  experiment_status svc !! id = Some sd ->
  progress_item (parse_progress id line svc) id "current_iteration" = Some (VInt n) ->
  progress_item svc id "current_iteration" = Some (VInt n) \/ 0 < n.
Proof.
  intros Hid. rewrite (parse_step_iteration _ _ _ _ Hid). unfold line_iteration.
  destruct (parse_line line) as [p|e]; [|auto].
  destruct (0 <? p_current_iteration p) eqn:E; [|auto].
  intros [= <-]. right. now apply Z.ltb_lt.
Qed.

Lemma parser_iteration_positive_witness :
  experiment_status svc_at_7 !! "e1"
    = Some (set_progress (IsDict {[ "current_iteration" := VInt 7 ]}) fresh_job)
  /\ progress_item (parse_progress "e1" "Iteration 0/20" svc_at_7) "e1" "current_iteration"
     = Some (VInt 7)
  /\ (progress_item svc_at_7 "e1" "current_iteration" = Some (VInt 7) \/ 0 < 7).
Proof.
  split; [vm_compute; reflexivity|]. split; [vm_compute; reflexivity|].
  apply (parser_iteration_positive "e1" "Iteration 0/20" svc_at_7
           (set_progress (IsDict {[ "current_iteration" := VInt 7 ]}) fresh_job) 7);
    vm_compute; reflexivity.
Defined.

End StreamFacts.

(** ** More on status updates and the supervised task *)

Section UpdateFacts.

Implicit Types (svc : service) (sd : status_dict) (st : ExperimentStatusEnum).

Lemma update_status_unknown id st kwargs now svc :
  experiment_status svc !! id = None ->
  _update_experiment_status id st kwargs now svc = (Returned tt, svc).
Proof. unfold _update_experiment_status. now intros ->. Qed.

Lemma names_none_elem keys kwargs key v :
  names_none keys kwargs = true -> In key keys -> (key, v) ∉ kwargs.
Proof.
  unfold names_none. rewrite forallb_forall. intros H Hkey Hin.
  apply list_elem_of_In in Hin. specialize (H _ Hin). cbn [fst] in H.
  apply negb_true_iff in H.
  assert (existsb (String.eqb key) keys = true); [|congruence].
  apply existsb_exists. exists key. split; [exact Hkey | apply String.eqb_refl].
Qed.

(** A call of the store that returns and whose keyword arguments do not
    name [id] leaves the rows of the other jobs alone. *)
Lemma database_update_other id id' s kwargs now table table' :
  id' <> id -> (forall v, ("id", v) ∉ kwargs) ->
  Database.update_experiment_status id s kwargs now table = Returned table' ->
  table' !! id' = table !! id'.
Proof.
  intros Hne Hid. unfold Database.update_experiment_status.
  destruct (Database.binds_parameter kwargs); [discriminate|].
  destruct (table !! id) as [rec|]; [|now intros [= <-]].
  destruct (Database.update_record s kwargs now id rec) as [[rec' pk]|e] eqn:E;
    cbn [bind]; [|discriminate].
  destruct (setattrs_frame _ _ _ _ _ E) as (_ & _ & Hpk & _).
  rewrite (Hpk Hid). unfold Database.commit. rewrite String.eqb_refl.
  intros [= <-]. now rewrite lookup_insert_ne.
Qed.

Lemma store_update_records_other id id' s kwargs now svc :
  id' <> id -> (forall v, ("id", v) ∉ kwargs) ->
  records (store_update id s kwargs now svc) !! id' = records svc !! id'.
Proof.
  intros Hne Hid. unfold store_update.
  destruct (database_up svc); [|reflexivity].
  destruct (Database.update_experiment_status _ _ _ _ _) as [table'|e] eqn:E;
    [|reflexivity].
  exact (database_update_other _ _ _ _ _ _ _ Hne Hid E).
Qed.

(** The keyword arguments that reach the store name nothing that the
    caller did not name, but for ["best_reward"]. *)
Lemma kw_set_key k v d key w :
  (key, w) ∈ kw_set k v d -> key = k \/ exists w', (key, w') ∈ d.
Proof.
  induction d as [|[k' v'] d IH]; cbn [kw_set].
  - intros H. apply list_elem_of_singleton in H. injection H as -> _. now left.
  - destruct (String.eqb k k').
    + intros H. apply elem_of_cons in H as [H|H].
      * injection H as -> _. now left.
      * right. exists w. now right.
    + intros H. apply elem_of_cons in H as [H|H].
      * right. exists w. rewrite H. left.
      * destruct (IH H) as [->|[w' Hw']]; [now left|]. right. exists w'. now right.
Qed.

Lemma kwargs_loop_key todo i n0 kwargs sd kw sd' key w :
  kwargs_loop todo i n0 kwargs sd = (Returned kw, sd') ->
  (key, w) ∈ kw -> key = "best_reward" \/ exists w', (key, w') ∈ kwargs.
Proof.
  revert i kwargs sd. induction todo as [|todo IH]; intros i kwargs sd; cbn [kwargs_loop].
  - destruct (negb _); [discriminate|]. intros [= <- _] H. eauto.
  - destruct (negb _); [discriminate|].
    destruct (kwargs !! i) as [[k v]|]; [|intros [= <- _] H; eauto].
    destruct (String.eqb k "error_message"); [apply IH|].
    destruct (String.eqb k "final_reward").
    + destruct (progress_setitem _ _ _); [|discriminate].
      intros Hl Hin. destruct (IH _ _ _ Hl Hin) as [->|[w' Hw']]; [now left|].
      destruct (kw_set_key _ _ _ _ _ Hw') as [->|?]; auto.
    + destruct (String.eqb k "collision_found"); [|apply IH].
      destruct (progress_setitem _ _ _); [apply IH|discriminate].
Qed.

Lemma db_kwargs_key kw key w :
  (key, w) ∈ db_kwargs kw -> key = "best_reward" \/ exists w', (key, w') ∈ kw.
Proof.
  unfold db_kwargs.
  assert (H : forall acc,
    (key, w) ∈ fold_left
      (fun acc kv =>
         if String.eqb (fst kv) "final_reward" then kw_set "best_reward" (snd kv) acc
         else kw_set (fst kv) (snd kv) acc) kw acc ->
    key = "best_reward" \/ (exists w', (key, w') ∈ acc) \/ exists w', (key, w') ∈ kw).
  { induction kw as [|[k v] kw IH]; intros acc; cbn [fold_left fst snd]; [eauto|].
    intros Hin. destruct (IH _ Hin) as [->|[[w' Hw']|[w' Hw']]]; [now left| |].
    - destruct (String.eqb k "final_reward");
        destruct (kw_set_key _ _ _ _ _ Hw') as [->|?]; eauto.
      right. right. exists v. left.
    - right. right. exists w'. now right. }
  intros Hin. destruct (H _ Hin) as [->|[[w' Hw']|?]]; auto.
  now apply elem_of_nil in Hw'.
Qed.

Lemma update_status_other id id' st kwargs now svc :
  id' <> id ->
  experiment_status (snd (_update_experiment_status id st kwargs now svc)) !! id'
  = experiment_status svc !! id'.
Proof.
  intros Hne. unfold _update_experiment_status.
  destruct (experiment_status svc !! id); [|auto].
  destruct (kwargs_loop _ _ _ _ _) as [[kw|e] sd2]; simpl.
  - destruct (store_update_memory id (enum_value st) (db_kwargs kw) now
      (with_status_map (<[id:=sd2]> (experiment_status svc)) svc)) as [-> _].
    simpl. now rewrite lookup_insert_ne.
  - now rewrite lookup_insert_ne.
Qed.

Lemma update_status_records_other id id' st kwargs now svc :
  id' <> id -> (forall v, ("id", v) ∉ kwargs) ->
  records (snd (_update_experiment_status id st kwargs now svc)) !! id'
  = records svc !! id'.
Proof.
  intros Hne Hid. unfold _update_experiment_status.
  destruct (experiment_status svc !! id); [|auto].
  destruct (kwargs_loop _ _ _ _ _) as [[kw|e] sd2] eqn:Hloop; simpl; [|reflexivity].
  rewrite store_update_records_other; [reflexivity|exact Hne|].
  intros v Hv. destruct (db_kwargs_key _ _ _ Hv) as [?|[w Hw]]; [discriminate|].
  destruct (kwargs_loop_key _ _ _ _ _ _ _ _ _ Hloop Hw) as [?|[w' Hw']]; [discriminate|].
  exact (Hid _ Hw').
Qed.

(** X7: a status update touches the job it is called for and nothing
    else: the tasks and every other job in memory are as before; every
    other record of the store is as before when no keyword argument
    names [id], the one column whose assignment moves a row; and for an
    unknown job the update returns and changes nothing. *)
Theorem update_status_frame id st kwargs now svc :
  active_experiments (snd (_update_experiment_status id st kwargs now svc))
  = active_experiments svc
  /\ (forall id', id' <> id ->
        experiment_status (snd (_update_experiment_status id st kwargs now svc)) !! id'
        = experiment_status svc !! id')
  /\ (names_none ["id"] kwargs = true ->
      forall id', id' <> id ->
        records (snd (_update_experiment_status id st kwargs now svc)) !! id'
        = records svc !! id')
  /\ (experiment_status svc !! id = None ->
        _update_experiment_status id st kwargs now svc = (Returned tt, svc)).
Proof.
  split; [apply update_status_active|]. split; [|split].
  - intros id' Hne. now apply update_status_other.
  - intros Hk id' Hne. apply update_status_records_other; [exact Hne|].
    intros v. apply (names_none_elem _ _ _ _ Hk). now left.
  - apply update_status_unknown.
Qed.

(** A keyword argument [id] moves the record of the job to another key
    of the store, unless that key is taken. *)
Example update_status_moves_record :
  records (snd (_update_experiment_status "e1" RUNNING [("id", VStr "e2")] 20 svc0)) !! "e1"
    = None
  /\ Database.r_status
       <$> records (snd (_update_experiment_status "e1" RUNNING [("id", VStr "e2")] 20 svc0))
             !! "e2"
     = Some "running".
Proof. vm_compute. split; reflexivity. Qed.

(** X8: what a status update does in memory, and whether it raises, does
    not depend on the store: with another table, or with the store out
    of reach, the outcome and the registry after the update are the
    same. *)
Theorem update_status_ignores_store id st kwargs now svc table up :
  fst (_update_experiment_status id st kwargs now (over_store table up svc))
  = fst (_update_experiment_status id st kwargs now svc)
  /\ experiment_status
       (snd (_update_experiment_status id st kwargs now (over_store table up svc)))
     = experiment_status (snd (_update_experiment_status id st kwargs now svc))
  /\ active_experiments
       (snd (_update_experiment_status id st kwargs now (over_store table up svc)))
     = active_experiments (snd (_update_experiment_status id st kwargs now svc)).
Proof.
  unfold _update_experiment_status, over_store. cbn [experiment_status].
  destruct (experiment_status svc !! id); [|auto].
  destruct (kwargs_loop _ _ _ _ _) as [[kw|e] sd2]; cbn [fst snd]; [|auto].
  split; [reflexivity|].
  match goal with
  | |- context [store_update ?a ?b ?c ?d ?s] =>
      destruct (store_update_memory a b c d s) as [-> ->]
  end.
  match goal with
  | |- context [store_update ?a ?b ?c ?d ?s] =>
      destruct (store_update_memory a b c d s) as [-> ->]
  end.
  auto.
Qed.

Lemma kw_set_length_new k v d :
  (forall j v', d !! j <> Some (k, v')) -> length (kw_set k v d) = S (length d).
Proof.
  induction d as [|[k' v'] d IH]; intros H; [reflexivity|]. simpl.
  destruct (String.eqb_spec k k') as [->|Hne].
  - exfalso. apply (H 0%nat v'). reflexivity.
  - simpl. f_equal. apply IH. intros j w. exact (H (S j) w).
Qed.

(** The loop over the keyword arguments raises when it meets
    ["final_reward"] in a dictionary without ["best_reward"]: either the
    progress cannot take the item, or the dictionary grows under the
    iterator. *)
Lemma kwargs_loop_final_reward todo i n0 kwargs sd :
  length kwargs = n0 -> (n0 <= todo + i)%nat ->
  (exists j v, (i <= j)%nat /\ kwargs !! j = Some ("final_reward", v)) ->
  (forall j v, kwargs !! j <> Some ("best_reward", v)) ->
  exists e, fst (kwargs_loop todo i n0 kwargs sd) = Raised e.
Proof.
  intros Hlen. revert i sd.
  induction todo as [|todo IH]; intros i sd Hle (j & v & Hij & Hj) Hbest.
  - apply lookup_lt_Some in Hj. lia.
  - cbn [kwargs_loop]. rewrite Hlen, Nat.eqb_refl. cbn [negb].
    match goal with
    | |- context [match ?x with Some _ => _ | None => _ end] =>
        destruct x as [[key w]|] eqn:Hi
    end.
    2:{ apply lookup_lt_Some in Hj. apply lookup_ge_None in Hi. lia. }
    assert (Hnext : key <> "final_reward" ->
              exists j v, (S i <= j)%nat /\ kwargs !! j = Some ("final_reward", v)).
    { intros Hkey. exists j, v. split; [|exact Hj].
      destruct (decide (j = i)) as [->|]; [|lia]. exfalso.
      assert (E : Some (key, w) = Some ("final_reward", v))
        by (rewrite <- Hi; exact Hj).
      congruence. }
    destruct (String.eqb key "error_message") eqn:E1.
    { apply String.eqb_eq in E1. subst key.
      apply IH; [lia | apply Hnext; discriminate | exact Hbest]. }
    destruct (String.eqb key "final_reward") eqn:E2.
    { destruct (progress_setitem "best_reward" w sd) as [sd'|e]; [|eauto].
      destruct todo; cbn [kwargs_loop];
        rewrite (kw_set_length_new _ _ _ Hbest), Hlen;
        (replace (Nat.eqb (S n0) n0) with false
           by (symmetry; apply Nat.eqb_neq; lia)); cbn [negb fst]; eauto. }
    apply String.eqb_neq in E2.
    destruct (String.eqb key "collision_found") eqn:E3.
    { destruct (progress_setitem "collision_found" w sd) as [sd'|e]; [|eauto].
      apply IH; [lia | now apply Hnext | exact Hbest]. }
    apply IH; [lia | now apply Hnext | exact Hbest].
Qed.

Lemma update_status_final_reward id st kwargs now svc sd :
  experiment_status svc !! id = Some sd ->
  (exists j v, kwargs !! j = Some ("final_reward", v)) ->
  (forall j v, kwargs !! j <> Some ("best_reward", v)) ->
  exists e, fst (_update_experiment_status id st kwargs now svc) = Raised e
            /\ records (snd (_update_experiment_status id st kwargs now svc)) = records svc.
Proof.
  intros Hid (j & v & Hj) Hbest. unfold _update_experiment_status. rewrite Hid.
  destruct (kwargs_loop_final_reward (length kwargs) 0 (length kwargs) kwargs
              (stamp st now (set_status (enum_value st) sd)) eq_refl)
    as [e He]; [lia | exists j, v; split; [lia | exact Hj] | exact Hbest |].
  destruct (kwargs_loop _ _ _ _ _) as [res sd2]. simpl in He. subst res.
  exists e. auto.
Qed.



End UpdateFacts.

Section TaskFacts.

Implicit Types (svc : service) (sd : status_dict) (st : ExperimentStatusEnum).

Lemma fail_task_active id e now svc :
  active_experiments (snd (fail_task id e now svc)) = delete id (active_experiments svc).
Proof.
  unfold fail_task.
  pose proof (update_status_active id FAILED [("error_message", VStr (exn_str e))] now svc) as H.
  destruct (_update_experiment_status _ _ _ _ _) as [res svc1]. simpl in *. now rewrite H.
Qed.

(** The handler of the task on a known job. *)
Lemma fail_task_known id e now svc sd :
  experiment_status svc !! id = Some sd ->
  fst (fail_task id e now svc) = Returned tt
  /\ recorded_failed (snd (fail_task id e now svc)) id (exn_str e) now.
Proof.
  intros Hid. unfold recorded_failed. rewrite fail_task_active, lookup_delete_eq.
  unfold fail_task, _update_experiment_status. rewrite Hid.
  cbn [kwargs_loop length negb Nat.eqb lookup list_lookup String.eqb Ascii.eqb Bool.eqb
       fst snd andb].
  unfold job_status, job_error_message, job_completed_at.
  cbn [fst snd finally_cleanup with_active experiment_status].
  match goal with
  | |- context [store_update ?a ?b ?c ?d ?s] =>
      destruct (store_update_memory a b c d s) as [-> _]
  end.
  cbn [experiment_status with_status_map]. rewrite lookup_insert_eq.
  repeat split.
Qed.



(** X10: the end of a run whose child exits with code 0.  Whatever the
    artifact holds, and whether or not it can be read, a known job ends
    recorded as failed, not as completed: the update to [completed]
    passes [final_reward] and raises, and the handler of the task takes
    over. *)
Theorem exit_0_recorded_failed id results now svc sd :
  experiment_status svc !! id = Some sd ->
  fst (task_exit id 0 results now svc) = Returned tt
  /\ exists msg, recorded_failed (snd (task_exit id 0 results now svc)) id msg now.
Proof.
  intros Hid. unfold task_exit. cbn [Z.eqb].
  assert (Hfail : forall e svc1 sd1, experiment_status svc1 !! id = Some sd1 ->
            fst (fail_task id e now svc1) = Returned tt
            /\ exists msg, recorded_failed (snd (fail_task id e now svc1)) id msg now).
  { intros e svc1 sd1 H1. destruct (fail_task_known id e now svc1 sd1 H1). eauto. }
  assert (Hup : forall kw1 kw2,
            let r := _update_experiment_status id COMPLETED
                       [("final_reward", kw1); ("collision_found", kw2)] now svc in
            exists e sd1, fst r = Raised e /\ experiment_status (snd r) !! id = Some sd1).
  { intros kw1 kw2 r.
    destruct (update_status_final_reward id COMPLETED
                [("final_reward", kw1); ("collision_found", kw2)] now svc sd Hid)
      as (e & He & _).
    - exists 0%nat, kw1. reflexivity.
    - intros [|[|j]] v; simpl; discriminate.
    - destruct (update_status_known id COMPLETED
                  [("final_reward", kw1); ("collision_found", kw2)] now svc sd Hid)
        as (sd1 & Hk & _).
      exists e, sd1. auto. }
  destruct results as [[r|e]|]; [|now apply (Hfail e svc sd)|].
  - destruct (Hup (default (l_best_reward initial_locals) (r !! "best_reward"))
                  (default (l_collision_found initial_locals) (r !! "collision_found")))
      as (e & sd1 & He & Hk).
    destruct (_update_experiment_status _ _ _ _ _) as [res svc1].
    simpl in He, Hk. subst res. now apply (Hfail e svc1 sd1).
  - destruct (Hup (l_best_reward initial_locals) (l_collision_found initial_locals))
      as (e & sd1 & He & Hk).
    destruct (_update_experiment_status _ _ _ _ _) as [res svc1].
    simpl in He, Hk. subst res. now apply (Hfail e svc1 sd1).
Qed.

Lemma exit_0_recorded_failed_witness :
  experiment_status svc_running_at_7 !! "e1"
    = Some (mk_status_dict "running" {[ "num_iterations" := VInt 20 ]} (Some 5) None VNone
              (Some "/out/experiment_e1") (IsDict {[ "current_iteration" := VInt 7 ]}))
  /\ fst (task_exit "e1" 0 (Some (Returned sample_results)) 9 svc_running_at_7) = Returned tt
  /\ exists msg,
       recorded_failed
         (snd (task_exit "e1" 0 (Some (Returned sample_results)) 9 svc_running_at_7))
         "e1" msg 9.
Proof.
  split; [vm_compute; reflexivity|].
  apply (exit_0_recorded_failed "e1" (Some (Returned sample_results)) 9 svc_running_at_7
           (mk_status_dict "running" {[ "num_iterations" := VInt 20 ]} (Some 5) None VNone
              (Some "/out/experiment_e1") (IsDict {[ "current_iteration" := VInt 7 ]}))).
  vm_compute; reflexivity.
Defined.

(** X12: every way out of the task removes the job from
    [active_experiments], for a known job or not: a launch that raises,
    the exit of the child with any code and any artifact, the runtime
    ceiling, and the cancellation of a started task; the tasks of other
    jobs stay. *)
Theorem task_end_removes_task id now svc :
  (forall e, active_experiments (snd (task_launch id (Raised e) now svc))
             = delete id (active_experiments svc))
  /\ (forall return_code results,
        active_experiments (snd (task_exit id return_code results now svc))
        = delete id (active_experiments svc))
  /\ active_experiments (snd (task_timeout id now svc)) = delete id (active_experiments svc)
  /\ active_experiments (cancel_and_await id Started svc) = delete id (active_experiments svc).
Proof.
  split; [|split; [|split]].
  - intros e. unfold task_launch.
    destruct (experiment_status svc !! id); apply fail_task_active.
  - intros rc results. unfold task_exit.
    destruct (rc =? 0); [|apply fail_task_active].
    assert (H : forall kw,
              active_experiments
                (snd (match _update_experiment_status id COMPLETED kw now svc with
                      | (Returned _, svc1) => (Returned tt, finally_cleanup id svc1)
                      | (Raised e, svc1) => fail_task id e now svc1
                      end)) = delete id (active_experiments svc)).
    { intros kw. pose proof (update_status_active id COMPLETED kw now svc) as Ha.
      destruct (_update_experiment_status id COMPLETED kw now svc) as [[u|e] svc1];
        simpl in Ha.
      - simpl. now rewrite Ha.
      - now rewrite fail_task_active, Ha. }
    destruct results as [[r|e]|]; [apply H | apply fail_task_active | apply H].
  - apply fail_task_active.
  - reflexivity.
Qed.

End TaskFacts.

(** ** More on the facade: start and stop *)

Section StartStopFacts.

Implicit Types (svc : service) (sd : status_dict).

Lemma start_started_at id now svc sd :
  experiment_status svc !! id = Some sd ->
  active_experiments svc !! id = None ->
  job_started_at (snd (start_experiment id now svc)) id = Some (Some now)
  /\ (forall id', id' <> id ->
        experiment_status (snd (start_experiment id now svc)) !! id'
        = experiment_status svc !! id'
        /\ active_experiments (snd (start_experiment id now svc)) !! id'
           = active_experiments svc !! id').
Proof.
  intros Hid Hact. unfold start_experiment. rewrite Hid, Hact.
  pose proof (update_status_no_kwargs id RUNNING now svc) as Hr.
  destruct (update_status_known id RUNNING [] now svc sd Hid) as (sd' & Hk & _ & Hs & _).
  pose proof (update_status_active id RUNNING [] now svc) as Ha.
  pose proof (fun id' H => update_status_other id id' RUNNING [] now svc H) as Ho.
  destruct (_update_experiment_status id RUNNING [] now svc) as [res svc1].
  simpl in Hr, Hk, Ha, Ho. subst res. simpl. split.
  - unfold job_started_at. simpl. now rewrite Hk, <- Hs.
  - intros id' Hne. split; [now apply Ho|]. rewrite lookup_insert_ne by auto.
    now rewrite Ha.
Qed.

(** X13: [start_experiment] raises [ValueError] and leaves the service
    as it was for an unknown job and for a job that has a task;
    otherwise it returns, the job is [running] with [started_at] the
    time of the call, its task is created and not yet run, and the other
    jobs and tasks are as before. *)
Theorem start_experiment_cases id now svc :
  (experiment_status svc !! id = None ->
   start_experiment id now svc
   = (Raised (ValueError ("Experiment " ++ id ++ " not found")), svc))
  /\ (is_Some (experiment_status svc !! id) -> is_Some (active_experiments svc !! id) ->
      start_experiment id now svc
      = (Raised (ValueError ("Experiment " ++ id ++ " is already running")), svc))
  /\ (is_Some (experiment_status svc !! id) -> active_experiments svc !! id = None ->
      fst (start_experiment id now svc) = Returned tt
      /\ job_status (snd (start_experiment id now svc)) id = Some "running"
      /\ job_started_at (snd (start_experiment id now svc)) id = Some (Some now)
      /\ active_experiments (snd (start_experiment id now svc)) !! id = Some Pending
      /\ forall id', id' <> id ->
           experiment_status (snd (start_experiment id now svc)) !! id'
           = experiment_status svc !! id'
           /\ active_experiments (snd (start_experiment id now svc)) !! id'
              = active_experiments svc !! id').
Proof.
  split; [apply start_unknown|]. split.
  - intros [sd Hid] [t Hact]. exact (start_already_running id now svc sd t Hid Hact).
  - intros [sd Hid] Hact.
    destruct (start_ok id now svc sd Hid Hact) as (H1 & H2 & H3).
    destruct (start_started_at id now svc sd Hid Hact) as (H4 & H5).
    auto 10.
Qed.

(** X14: stopping a job right after starting it, before its task has
    run: both calls return, the job ends [stopped] with [started_at] the
    time of the start and [completed_at] the time of the stop, and it has
    no task left. *)
Theorem start_then_stop id t1 t2 svc sd :
  experiment_status svc !! id = Some sd ->
  active_experiments svc !! id = None ->
  fst (start_experiment id t1 svc) = Returned tt
  /\ fst (stop_experiment id t2 (snd (start_experiment id t1 svc))) = Returned tt
  /\ job_status (snd (stop_experiment id t2 (snd (start_experiment id t1 svc)))) id
     = Some "stopped"
  /\ job_started_at (snd (stop_experiment id t2 (snd (start_experiment id t1 svc)))) id
     = Some (Some t1)
  /\ job_completed_at (snd (stop_experiment id t2 (snd (start_experiment id t1 svc)))) id
     = Some (Some t2)
  /\ active_experiments (snd (stop_experiment id t2 (snd (start_experiment id t1 svc)))) !! id
     = None.
Proof.
  intros Hid Hact.
  destruct (start_ok id t1 svc sd Hid Hact) as (H1 & H2 & H3).
  destruct (start_started_at id t1 svc sd Hid Hact) as (H4 & _).
  set (svc1 := snd (start_experiment id t1 svc)) in *.
  unfold job_status in H2. unfold job_started_at in H4.
  destruct (experiment_status svc1 !! id) as [sd1|] eqn:Hid1; [|discriminate].
  simpl in H2, H4.
  destruct (stop_pending id t2 svc1 sd1 Hid1 H3) as (S1 & S2 & S3).
  split; [exact H1|]. split; [exact S1|]. split; [exact S2|].
  split; [|split; [|exact S3]].
  - unfold stop_experiment. rewrite H3. simpl. rewrite H3.
    set (svc2 := with_active (delete id (active_experiments svc1)) svc1).
    assert (Hid2 : experiment_status svc2 !! id = Some sd1) by exact Hid1.
    destruct (update_status_known id STOPPED [] t2 svc2 sd1 Hid2) as (sd' & Hk & _ & Hs & _).
    unfold job_started_at. rewrite Hk. simpl. rewrite Hs. congruence.
  - unfold stop_experiment. rewrite H3. simpl. rewrite H3.
    set (svc2 := with_active (delete id (active_experiments svc1)) svc1).
    assert (Hid2 : experiment_status svc2 !! id = Some sd1) by exact Hid1.
    destruct (update_status_known id STOPPED [] t2 svc2 sd1 Hid2) as (sd' & Hk & _ & _ & Hc).
    unfold job_completed_at. rewrite Hk. simpl. now rewrite Hc.
Qed.

Lemma start_then_stop_witness :
  experiment_status svc0 !! "e1" = Some fresh_job
  /\ active_experiments svc0 !! "e1" = None
  /\ fst (stop_experiment "e1" 7 (snd (start_experiment "e1" 5 svc0))) = Returned tt
  /\ job_status (snd (stop_experiment "e1" 7 (snd (start_experiment "e1" 5 svc0)))) "e1"
     = Some "stopped"
  /\ record_status (snd (stop_experiment "e1" 7 (snd (start_experiment "e1" 5 svc0)))) "e1"
     = Some "stopped".
Proof.
  split; [reflexivity|]. split; [reflexivity|].
  destruct (start_then_stop "e1" 5 7 svc0 fresh_job eq_refl eq_refl)
    as (_ & H1 & H2 & _).
  split; [exact H1|]. split; [exact H2|]. vm_compute; reflexivity.
Defined.

End StartStopFacts.

(** ** More on the durable store *)

Section StoreFacts.








End StoreFacts.

(** ** More on results and files *)

Section MoreFileFacts.

Implicit Types (fs : filesystem) (svc : service) (sd : status_dict).

Lemma regular_files_inv fs dir names files :
  regular_files fs dir names = Returned files ->
  Forall (answers fs dir) names /\ files = List.filter (regular fs dir) names.
Proof.
  revert files. induction names as [|n names IH]; intros files; cbn [regular_files].
  - intros [= <-]. split; [constructor | reflexivity].
  - destruct (fs_is_file fs (Path.truediv dir n)) as [b|e] eqn:Hn; cbn [bind];
      [|discriminate].
    destruct (regular_files fs dir names) as [files'|e]; cbn [bind]; [|discriminate].
    destruct (IH _ eq_refl) as [Hall ->]. intros [= <-].
    split; [constructor; [now exists b | exact Hall]|].
    cbn [List.filter].
    assert (regular fs dir n = b) as -> by (unfold regular; now rewrite Hn).
    reflexivity.
Qed.

(** X16: the file list of a result is in order and holds exactly the
    names of the regular files of the output directory: it is sorted, it
    is a rearrangement of the names that [iterdir] gave and that are
    regular files, and it is empty for a directory that does not exist.
    When there is a list, every check made on the way has returned. *)
Theorem list_result_files_sorted fs dir files :
  _list_result_files fs dir = Returned files ->
  Sorted (fun a b => String.leb a b = true) files
  /\ (exists present, fs_exists fs dir = Returned present)
  /\ (fs_exists fs dir = Returned false -> files = [])
  /\ (fs_exists fs dir = Returned true ->
      exists names, fs_iterdir fs dir = Returned names
        /\ Forall (answers fs dir) names
        /\ Permutation files (List.filter (regular fs dir) names)).
Proof.
  unfold _list_result_files.
  destruct (fs_exists fs dir) as [[|]|e]; cbn [bind negb]; [| |discriminate].
  - destruct (fs_iterdir fs dir) as [names|e]; cbn [bind]; [|discriminate].
    destruct (regular_files fs dir names) as [files'|e] eqn:Hfiles; cbn [bind];
      [|discriminate].
    destruct (regular_files_inv _ _ _ _ Hfiles) as [Hall ->].
    intros [= <-]. split; [apply sorted_sorted|]. split; [eauto|].
    split; [discriminate|].
    intros _. exists names. split; [reflexivity|]. split; [exact Hall | apply sorted_perm].
  - intros [= <-]. split; [constructor|]. split; [eauto|].
    split; [reflexivity | discriminate].
Qed.

Lemma list_result_files_sorted_witness :
  _list_result_files (tree_fs sample_tree) (output_dir_of fresh_job)
    = Returned ["a.log"; "experiment_config.json"]
  /\ fs_iterdir (tree_fs sample_tree) (output_dir_of fresh_job)
     = Returned ["experiment_config.json"; "a.log"]
  /\ Sorted (fun a b => String.leb a b = true) ["a.log"; "experiment_config.json"].
Proof.
  split; [vm_compute; reflexivity|]. split; [vm_compute; reflexivity|].
  apply (list_result_files_sorted (tree_fs sample_tree) (output_dir_of fresh_job)
           ["a.log"; "experiment_config.json"]).
  vm_compute; reflexivity.
Defined.



Lemma cut_none sep s : Str.contains sep s = false -> Str.cut sep s = None.
Proof.
  intros H. destruct (Str.cut sep s) as [[a b]|] eqn:E; [|reflexivity].
  apply cut_contains in E. congruence.
Qed.

Lemma contains_cons sep c s :
  Str.contains sep (String c s) = false -> Str.contains sep s = false.
Proof. simpl. now intros [_ H]%orb_false_elim. Qed.

(** A name without ["/"] that is neither empty nor ["."] is a path of
    one component. *)
Lemma of_string_plain name :
  Str.contains "/" name = false -> name <> "" -> name <> "." ->
  Path.of_string name = Path.mk 0 [name].
Proof.
  intros Hc Hne Hdot. unfold Path.of_string, Str.split.
  destruct name as [|c name]; [congruence|].
  assert (Hlead : Path.leading_slashes (String c name) = 0%nat).
  { simpl in Hc. apply orb_false_elim in Hc as [Hc _].
    destruct c as [[] [] [] [] [] [] [] []]; simpl in *; try reflexivity; discriminate. }
  rewrite Hlead. cbn [String.length Str.split_fuel].
  rewrite (cut_none _ _ Hc). cbn [List.filter].
  destruct (String.eqb_spec (String c name) ""); [congruence|].
  destruct (String.eqb_spec (String c name) "."); [congruence|]. reflexivity.
Qed.

Lemma normalize_snoc l name :
  name <> ".." -> normalize (l ++ [name]) = (normalize l ++ [name])%list.
Proof.
  intros H. rewrite normalize_app. simpl.
  now destruct (String.eqb_spec name "..").
Qed.

Lemma is_prefix_app l l' : Path.is_prefix l (l ++ l') = true.
Proof.
  induction l as [|a l IH]; [reflexivity|]. simpl. now rewrite String.eqb_refl, IH.
Qed.

Lemma walk_raised t cur cs e : walk t cur cs = Raised e -> e = name_too_long.
Proof.
  revert cur. induction cs as [|c cs IH]; intros cur; cbn [walk]; [discriminate|].
  destruct (is_dir t cur); [|discriminate].
  destruct (NAME_MAX <? String.length c)%nat; [now intros [= <-] | apply IH].
Qed.

(** The existence check of a tree raises for a name that is too long
    and for nothing else. *)
Lemma tree_exists_raised t p e :
  fs_exists (tree_fs t) p = Raised e -> e = name_too_long.
Proof.
  cbn [tree_fs fs_exists]. unfold stat.
  destruct (PATH_MAX <=? _)%nat; cbn [bind]; [now intros [= <-]|].
  destruct (walk t _ _) eqn:E; cbn [bind]; [discriminate|].
  intros [= <-]. exact (walk_raised _ _ _ _ E).
Qed.

(** X18: in a file tree without symbolic links, the guard never refuses
    a plain file name (no ["/"], not empty, not ["."] nor [".."], and no
    null character in it or in the output directory) given for a known
    job: the answer is the path of that name in the output directory
    when the existence check finds something there, nothing when it
    finds nothing, and the error of that check when it raises, as it
    does for a name that is too long. *)
Theorem plain_name_found_iff_exists t id name svc sd :
  experiment_status svc !! id = Some sd ->
  Str.contains "/" name = false -> name <> "" -> name <> "." -> name <> ".." ->
  existsb has_null (Path.parts (output_dir_of sd)) = false -> has_null name = false ->
  get_experiment_file_path (tree_fs t) id name svc
  = match fs_exists (tree_fs t) (Path.truediv (output_dir_of sd) name) with
    | Returned present =>
        Returned (if present then Some (Path.truediv (output_dir_of sd) name) else None)
    | Raised e => Raised e
    end
  /\ absolute t (Path.truediv (output_dir_of sd) name)
     = (absolute t (output_dir_of sd) ++ [name])%list.
Proof.
  intros Hid Hc Hne Hdot Hdd Hnull Hnull'.
  assert (Hparts : Path.truediv (output_dir_of sd) name
                   = Path.mk (Path.root (output_dir_of sd))
                             (Path.parts (output_dir_of sd) ++ [name])).
  { unfold Path.truediv. now rewrite (of_string_plain name Hc Hne Hdot). }
  assert (Habs : absolute t (Path.truediv (output_dir_of sd) name)
                 = (absolute t (output_dir_of sd) ++ [name])%list).
  { rewrite Hparts. unfold absolute. cbn [Path.root Path.parts].
    destruct (Path.root (output_dir_of sd)).
    - now rewrite app_assoc, normalize_snoc.
    - now rewrite normalize_snoc. }
  split; [|exact Habs].
  unfold get_experiment_file_path, get_experiment. rewrite Hid.
  cbn [tree_fs fs_resolve].
  assert (Hn : existsb has_null (Path.parts (Path.truediv (output_dir_of sd) name)) = false).
  { rewrite Hparts. cbn [Path.parts]. rewrite existsb_app, Hnull. cbn. now rewrite Hnull'. }
  rewrite Hn, Hnull. cbn [bind].
  unfold Path.relative_to, Path.is_relative_to. cbn [Path.root Path.parts Nat.eqb andb].
  rewrite Habs, is_prefix_app. cbn [bind].
  change (let! found := stat t (Path.truediv (output_dir_of sd) name) in
          Returned match found with
                   | Some e => is_dir t e || mem e (files t)
                   | None => false
                   end)
    with (fs_exists (tree_fs t) (Path.truediv (output_dir_of sd) name)).
  destruct (fs_exists (tree_fs t) _) as [present|e] eqn:E; cbn [bind]; [reflexivity|].
  now rewrite (tree_exists_raised _ _ _ E).
Qed.

Lemma plain_name_found_iff_exists_witness :
  experiment_status svc0 !! "e1" = Some fresh_job
  /\ get_experiment_file_path (tree_fs sample_tree) "e1" "a.log" svc0
     = Returned (Some (Path.mk 1 ["out"; "experiment_e1"; "a.log"]))
  /\ get_experiment_file_path (tree_fs sample_tree) "e1" "b.log" svc0 = Returned None.
Proof.
  split; [reflexivity|].
  pose proof (proj1 (plain_name_found_iff_exists sample_tree "e1" "a.log" svc0 fresh_job
                       eq_refl eq_refl ltac:(discriminate) ltac:(discriminate)
                       ltac:(discriminate) eq_refl eq_refl)) as Ha.
  pose proof (proj1 (plain_name_found_iff_exists sample_tree "e1" "b.log" svc0 fresh_job
                       eq_refl eq_refl ltac:(discriminate) ltac:(discriminate)
                       ltac:(discriminate) eq_refl eq_refl)) as Hb.
  split; [exact Ha | exact Hb].
Defined.

Lemma of_string_parent name :
  Str.contains "/" name = false -> name <> "" -> name <> "." ->
  Path.of_string ("../" ++ name) = Path.mk 0 [".."; name].
Proof.
  intros Hc Hne Hdot. unfold Path.of_string, Str.split.
  change (Path.leading_slashes ("../" ++ name)) with 0%nat.
  change (String.length ("../" ++ name)) with (S (S (S (String.length name)))).
  cbn [Str.split_fuel].
  change (Str.cut "/" ("../" ++ name)) with (Some ("..", name)).
  destruct (String.length name) eqn:Hlen.
  - destruct name; [congruence|discriminate].
  - cbn [Str.split_fuel Str.cut]. rewrite (cut_none _ _ Hc).
    cbn [List.filter String.eqb Ascii.eqb Bool.eqb andb negb].
    destruct (String.eqb_spec name ""); [congruence|].
    destruct (String.eqb_spec name "."); [congruence|]. reflexivity.
Qed.

(** X19: in a file tree without symbolic links, a name that steps out of
    the output directory to a sibling, ["../" ++ name], is answered with
    nothing for every known job whose output directory is not the root
    and is not itself called [name], whatever lies at that place. *)
Theorem sibling_refused t id name svc sd :
  experiment_status svc !! id = Some sd ->
  Str.contains "/" name = false -> name <> "" -> name <> "." -> name <> ".." ->
  absolute t (output_dir_of sd) <> [] ->
  List.last (absolute t (output_dir_of sd)) "" <> name ->
  get_experiment_file_path (tree_fs t) id ("../" ++ name) svc = Returned None.
Proof.
  intros Hid Hc Hne Hdot Hdd Hroot Hlast.
  apply (tree_file_path_refused t id ("../" ++ name) svc sd Hid).
  unfold Path.truediv. rewrite (of_string_parent name Hc Hne Hdot).
  cbn [Path.root Path.parts].
  rewrite absolute_dotdot by assumption.
  destruct (exists_last Hroot) as (n & x & Hn). rewrite Hn in *.
  rewrite last_last in Hlast. rewrite removelast_last.
  now apply is_prefix_last.
Qed.

Lemma sibling_refused_witness :
  experiment_status svc0 !! "e1" = Some fresh_job
  /\ fs_exists (tree_fs sample_tree) (Path.mk 1 ["out"; "secret"]) = Returned true
  /\ get_experiment_file_path (tree_fs sample_tree) "e1" ("../" ++ "secret") svc0
     = Returned None.
Proof.
  split; [reflexivity|]. split; [vm_compute; reflexivity|].
  apply (sibling_refused sample_tree "e1" "secret" svc0 fresh_job);
    try reflexivity; try discriminate.
Defined.

End MoreFileFacts.

(** ** Creating and deleting jobs *)

Section CreateDeleteFacts.

Implicit Types (fs : filesystem) (svc : service) (sd : status_dict).

Example create_gives_fixture :
  create_experiment "e1" "/out" {[ "num_iterations" := VInt 20 ]} (Returned tt) empty_service
  = (Returned fresh_job, svc0).
Proof. vm_compute. reflexivity. Qed.

Lemma store_save_memory id svc :
  experiment_status (store_save id svc) = experiment_status svc
  /\ active_experiments (store_save id svc) = active_experiments svc.
Proof.
  unfold store_save. destruct (database_up svc); [|auto].
  destruct (save_experiment_record id (records svc)); auto.
Qed.

Lemma store_save_records id svc :
  (forall rec, records svc !! id = Some rec -> records (store_save id svc) = records svc)
  /\ (forall id', id' <> id -> records (store_save id svc) !! id' = records svc !! id')
  /\ (database_up svc = true -> records svc !! id = None ->
      records (store_save id svc) !! id
      = Some (Database.mk_record "created" None None VNone (VBool false) VNone)).
Proof.
  unfold store_save, save_experiment_record. split; [|split].
  - intros rec Hrec. rewrite Hrec. now destruct (database_up svc).
  - intros id' Hne. destruct (database_up svc); [|reflexivity].
    destruct (records svc !! id); [reflexivity|]. simpl. now rewrite lookup_insert_ne.
  - intros -> ->. simpl. apply lookup_insert_eq.
Qed.

(** X20: [create_experiment] fails only when the output directory
    cannot be made, and then changes nothing.  Otherwise it returns the
    new job: status [created], no timestamps, no progress, its own output
    directory under the root; the job is registered under its id whether
    or not the store can be reached; other jobs, all tasks and the
    records of other jobs are as before, and a record that the store
    already has under the id is not overwritten. *)
Theorem create_experiment_registers id root config svc :
  (forall e, create_experiment id root config (Raised e) svc = (Raised e, svc))
  /\ fst (create_experiment id root config (Returned tt) svc)
     = Returned (created_job id root config)
  /\ experiment_status (snd (create_experiment id root config (Returned tt) svc)) !! id
     = Some (created_job id root config)
  /\ active_experiments (snd (create_experiment id root config (Returned tt) svc))
     = active_experiments svc
  /\ (forall id', id' <> id ->
        experiment_status (snd (create_experiment id root config (Returned tt) svc)) !! id'
        = experiment_status svc !! id'
        /\ records (snd (create_experiment id root config (Returned tt) svc)) !! id'
           = records svc !! id')
  /\ (forall rec, records svc !! id = Some rec ->
        records (snd (create_experiment id root config (Returned tt) svc)) = records svc)
  /\ (database_up svc = true -> records svc !! id = None ->
        records (snd (create_experiment id root config (Returned tt) svc)) !! id
        = Some (Database.mk_record "created" None None VNone (VBool false) VNone)).
Proof.
  unfold create_experiment, created_job. cbn [fst snd enum_value].
  destruct (store_save_memory id svc) as [Hm Ha].
  destruct (store_save_records id svc) as (Hr1 & Hr2 & Hr3).
  split; [reflexivity|]. split; [reflexivity|].
  cbn [experiment_status active_experiments records with_status_map].
  split; [apply lookup_insert_eq|]. split; [exact Ha|]. split; [|split].
  - intros id' Hne. rewrite lookup_insert_ne by auto. rewrite Hm. auto.
  - exact Hr1.
  - exact Hr3.
Qed.

(** X21: a job just created, under an id that has no task, can be
    started: the start returns, the job is [running] from the time of
    the start, and its task is created. *)
Theorem create_then_start id root config now svc :
  active_experiments svc !! id = None ->
  fst (start_experiment id now
         (snd (create_experiment id root config (Returned tt) svc))) = Returned tt
  /\ job_status (snd (start_experiment id now
         (snd (create_experiment id root config (Returned tt) svc)))) id = Some "running"
  /\ job_started_at (snd (start_experiment id now
         (snd (create_experiment id root config (Returned tt) svc)))) id = Some (Some now)
  /\ active_experiments (snd (start_experiment id now
         (snd (create_experiment id root config (Returned tt) svc)))) !! id = Some Pending.
Proof.
  intros Hact.
  set (svc1 := snd (create_experiment id root config (Returned tt) svc)).
  assert (Hid : experiment_status svc1 !! id = Some (created_job id root config)).
  { unfold svc1, create_experiment. cbn [snd experiment_status with_status_map].
    apply lookup_insert_eq. }
  assert (Hact1 : active_experiments svc1 !! id = None).
  { unfold svc1, create_experiment. cbn [snd active_experiments with_status_map].
    now rewrite (proj2 (store_save_memory id svc)). }
  destruct (start_ok id now svc1 _ Hid Hact1) as (H1 & H2 & H3).
  destruct (start_started_at id now svc1 _ Hid Hact1) as (H4 & _). auto.
Qed.

Lemma create_then_start_witness :
  active_experiments empty_service !! "e1" = None
  /\ job_status (snd (start_experiment "e1" 5
       (snd (create_experiment "e1" "/out" {[ "num_iterations" := VInt 20 ]}
               (Returned tt) empty_service)))) "e1" = Some "running"
  /\ record_status (snd (start_experiment "e1" 5
       (snd (create_experiment "e1" "/out" {[ "num_iterations" := VInt 20 ]}
               (Returned tt) empty_service)))) "e1" = Some "running".
Proof.
  split; [reflexivity|].
  destruct (create_then_start "e1" "/out" {[ "num_iterations" := VInt 20 ]} 5
              empty_service eq_refl) as (_ & H & _).
  split; [exact H | vm_compute; reflexivity].
Defined.

Lemma stop_started_key_error id now svc :
  active_experiments svc !! id = Some Started ->
  fst (stop_experiment id now svc) = Raised (KeyError id)
  /\ experiment_status (snd (stop_experiment id now svc)) = experiment_status svc.
Proof.
  intros Hact. unfold stop_experiment. rewrite Hact.
  unfold cancel_and_await, finally_cleanup. cbn [active_experiments with_active].
  rewrite lookup_delete_eq. auto.
Qed.

(** What [stop_experiment] leaves of the registry. *)
Lemma stop_keeps_known id now svc :
  (forall id', id' <> id ->
     experiment_status (snd (stop_experiment id now svc)) !! id'
     = experiment_status svc !! id')
  /\ (is_Some (experiment_status svc !! id) ->
      is_Some (experiment_status (snd (stop_experiment id now svc)) !! id))
  /\ (experiment_status svc !! id = None ->
      experiment_status (snd (stop_experiment id now svc)) !! id = None)
  /\ (fst (stop_experiment id now svc) = Returned tt ->
      active_experiments (snd (stop_experiment id now svc)) !! id = None).
Proof.
  unfold stop_experiment.
  destruct (active_experiments svc !! id) as [[|]|] eqn:Hact; cbn [cancel_and_await].
  - rewrite Hact.
    set (svc1 := with_active (delete id (active_experiments svc)) svc).
    split; [|split; [|split]].
    + intros id' Hne. apply (update_status_other id id' STOPPED [] now svc1 Hne).
    + intros [sd Hid].
      destruct (update_status_known id STOPPED [] now svc1 sd Hid) as (sd' & Hk & _).
      rewrite Hk. eauto.
    + intros Hid. now rewrite (update_status_unknown id STOPPED [] now svc1 Hid).
    + intros _. rewrite update_status_active. apply lookup_delete_eq.
  - unfold finally_cleanup. cbn [active_experiments with_active].
    rewrite lookup_delete_eq. cbn [fst snd experiment_status with_active].
    repeat split; auto; discriminate.
  - cbn [fst snd]. repeat split; auto; discriminate.
Qed.

(** X22: how [delete_experiment] ends.  When it raises, the job was
    known and is still registered.  When it returns true, the job was
    known and is gone from the registry and from the tasks.  When it
    returns false, the job was unknown and nothing happened: the service
    is as before and no directory was removed.  Other jobs are never
    touched. *)
Theorem delete_experiment_outcome fs rmtree id now svc :
  (forall e, fst (fst (delete_experiment fs rmtree id now svc)) = Raised e ->
     is_Some (experiment_status svc !! id)
     /\ is_Some (experiment_status (snd (fst (delete_experiment fs rmtree id now svc))) !! id))
  /\ (fst (fst (delete_experiment fs rmtree id now svc)) = Returned true ->
     is_Some (experiment_status svc !! id)
     /\ experiment_status (snd (fst (delete_experiment fs rmtree id now svc))) !! id = None
     /\ active_experiments (snd (fst (delete_experiment fs rmtree id now svc))) !! id = None)
  /\ (fst (fst (delete_experiment fs rmtree id now svc)) = Returned false ->
     experiment_status svc !! id = None
     /\ delete_experiment fs rmtree id now svc = (Returned false, svc, []))
  /\ (forall id', id' <> id ->
     experiment_status (snd (fst (delete_experiment fs rmtree id now svc))) !! id'
     = experiment_status svc !! id').
Proof.
  unfold delete_experiment.
  destruct (experiment_status svc !! id) as [sd|] eqn:Hid.
  2:{ cbn [fst snd]. repeat split; auto; discriminate. }
  assert (Hstop : exists stopped svc1,
            match active_experiments svc !! id with
            | Some _ => stop_experiment id now svc
            | None => (Returned tt, svc)
            end = (stopped, svc1)
            /\ is_Some (experiment_status svc1 !! id)
            /\ (forall id', id' <> id ->
                  experiment_status svc1 !! id' = experiment_status svc !! id')
            /\ (stopped = Returned tt -> active_experiments svc1 !! id = None)).
  { destruct (active_experiments svc !! id) eqn:Hact.
    - destruct (stop_keeps_known id now svc) as (H1 & H2 & _ & H4).
      destruct (stop_experiment id now svc) as [stopped svc1]. cbn [fst snd] in *.
      exists stopped, svc1. split; [reflexivity|].
      split; [apply H2; eauto|]. split; [exact H1|]. intros ->. now apply H4.
    - exists (Returned tt), svc. split; [reflexivity|].
      split; [eauto|]. split; [reflexivity|]. intros _. exact Hact. }
  destruct Hstop as (stopped & svc1 & -> & [sd1 Hk] & Hother & Hact1).
  destruct stopped as [[]|e0]; cbn [fst snd].
  2:{ rewrite Hk. repeat split; eauto; discriminate. }
  rewrite Hk. specialize (Hact1 eq_refl).
  destruct (output_directory sd1) as [dir|]; cbn [fst snd].
  2:{ rewrite Hk. repeat split; eauto; discriminate. }
  destruct (fs_exists fs (Path.of_string dir)) as [[|]|e0]; [destruct (rmtree _)| |];
    cbn [fst snd experiment_status active_experiments with_status_map];
    rewrite ?lookup_delete_eq, ?Hk;
    (repeat split; eauto; try discriminate);
    intros id' Hne; rewrite ?lookup_delete_ne by auto; auto.
Qed.

(** X23: deleting a known job that has no task and whose directory can
    be removed: the call returns true, asks [shutil.rmtree] for the
    output directory of the job exactly when that directory exists, and
    takes the job out of the registry; when the check of the directory
    itself raises, the call raises that exception, removes nothing and
    leaves the service as it was.  In every case the tasks and the
    whole store are as before, so the record of the job stays in the
    store. *)
Theorem delete_idle_job fs id now svc sd dir :
  experiment_status svc !! id = Some sd ->
  active_experiments svc !! id = None ->
  output_directory sd = Some dir ->
  delete_experiment fs rmtree_ok id now svc
  = match fs_exists fs (Path.of_string dir) with
    | Returned present =>
        (Returned true,
         with_status_map (delete id (experiment_status svc)) svc,
         if present then [Path.of_string dir] else [])
    | Raised e => (Raised e, svc, [])
    end
  /\ records (snd (fst (delete_experiment fs rmtree_ok id now svc))) = records svc
  /\ active_experiments (snd (fst (delete_experiment fs rmtree_ok id now svc)))
     = active_experiments svc.
Proof.
  intros Hid Hact Hdir. unfold delete_experiment. rewrite Hid, Hact, Hid, Hdir.
  unfold rmtree_ok. destruct (fs_exists fs (Path.of_string dir)) as [[|]|e]; auto.
Qed.

Lemma delete_idle_job_witness :
  experiment_status svc_failed !! "e1"
    = Some (mk_status_dict "failed" {[ "num_iterations" := VInt 20 ]} (Some 5) (Some 9)
              (VStr "Experiment subprocess failed with return code 1")
              (Some "/out/experiment_e1") IsNone)
  /\ snd (delete_experiment (tree_fs sample_tree) rmtree_ok "e1" 20 svc_failed)
     = [Path.mk 1 ["out"; "experiment_e1"]]
  /\ experiment_status
       (snd (fst (delete_experiment (tree_fs sample_tree) rmtree_ok "e1" 20 svc_failed)))
       !! "e1" = None
  /\ record_status
       (snd (fst (delete_experiment (tree_fs sample_tree) rmtree_ok "e1" 20 svc_failed)))
       "e1" = Some "failed".
Proof.
  split; [vm_compute; reflexivity|].
  destruct (delete_idle_job (tree_fs sample_tree) "e1" 20 svc_failed
              (mk_status_dict "failed" {[ "num_iterations" := VInt 20 ]} (Some 5) (Some 9)
                 (VStr "Experiment subprocess failed with return code 1")
                 (Some "/out/experiment_e1") IsNone)
              "/out/experiment_e1") as (H & Hrec & _);
    [vm_compute; reflexivity | vm_compute; reflexivity | reflexivity |].
  split; [rewrite H; vm_compute; reflexivity|].
  split; [rewrite H; vm_compute; reflexivity|].
  unfold record_status. rewrite Hrec. vm_compute; reflexivity.
Defined.

(** X24: deleting a job whose task has started raises [KeyError], the
    one of [stop_experiment]: the job stays in the registry with the
    status it had, and no directory is removed. *)
Theorem delete_started_raises fs rmtree id now svc sd :
  experiment_status svc !! id = Some sd ->
  active_experiments svc !! id = Some Started ->
  fst (fst (delete_experiment fs rmtree id now svc)) = Raised (KeyError id)
  /\ experiment_status (snd (fst (delete_experiment fs rmtree id now svc)))
     = experiment_status svc
  /\ snd (delete_experiment fs rmtree id now svc) = [].
Proof.
  intros Hid Hact. unfold delete_experiment. rewrite Hid, Hact.
  destruct (stop_started_key_error id now svc Hact) as (H1 & H2).
  destruct (stop_experiment id now svc) as [stopped svc1]. cbn [fst snd] in *.
  subst stopped. auto.
Qed.

Lemma delete_started_raises_witness :
  experiment_status svc_running !! "e1"
    = Some (mk_status_dict "running" {[ "num_iterations" := VInt 20 ]} (Some 5) None VNone
              (Some "/out/experiment_e1") IsNone)
  /\ active_experiments svc_running !! "e1" = Some Started
  /\ fst (fst (delete_experiment (tree_fs sample_tree) rmtree_ok "e1" 20 svc_running))
     = Raised (KeyError "e1")
  /\ snd (delete_experiment (tree_fs sample_tree) rmtree_ok "e1" 20 svc_running) = [].
Proof.
  split; [vm_compute; reflexivity|]. split; [vm_compute; reflexivity|].
  destruct (delete_started_raises (tree_fs sample_tree) rmtree_ok "e1" 20 svc_running
              (mk_status_dict "running" {[ "num_iterations" := VInt 20 ]} (Some 5) None VNone
                 (Some "/out/experiment_e1") IsNone)) as (H1 & _ & H3);
    [vm_compute; reflexivity | vm_compute; reflexivity |].
  split; [exact H1 | exact H3].
Defined.

(** X25: deleting a known job that has no task and no output directory
    on record (as a row of the store without one gives after a restart)
    raises [TypeError] and changes nothing, so the job cannot be deleted,
    while [get_experiment_results] and [get_experiment_file_path] take
    the missing directory for the current one. *)
Theorem delete_without_directory fs rmtree id now svc sd :
  experiment_status svc !! id = Some sd ->
  active_experiments svc !! id = None ->
  output_directory sd = None ->
  (exists msg, delete_experiment fs rmtree id now svc = (Raised (TypeError msg), svc, []))
  /\ output_dir_of sd = Path.mk 0 []
  /\ Path.to_string (output_dir_of sd) = ".".
Proof.
  intros Hid Hact Hdir. unfold delete_experiment. rewrite Hid, Hact, Hid, Hdir.
  split; [eauto|]. unfold output_dir_of. now rewrite Hdir.
Qed.

Lemma delete_without_directory_witness :
  experiment_status
    (new_service ∅ true
       (Returned [mk_row "e9" (Database.mk_record "failed" None None VNone (VBool true) VNone)
                         None ∅])) !! "e9"
  = Some (status_of_row
            (mk_row "e9" (Database.mk_record "failed" None None VNone (VBool true) VNone)
                    None ∅))
  /\ exists msg,
       delete_experiment (tree_fs sample_tree) rmtree_ok "e9" 20
         (new_service ∅ true
            (Returned [mk_row "e9"
                         (Database.mk_record "failed" None None VNone (VBool true) VNone)
                         None ∅]))
       = (Raised (TypeError msg),
          new_service ∅ true
            (Returned [mk_row "e9"
                         (Database.mk_record "failed" None None VNone (VBool true) VNone)
                         None ∅]),
          []).
Proof.
  split; [vm_compute; reflexivity|].
  apply (delete_without_directory (tree_fs sample_tree) rmtree_ok "e9" 20
           (new_service ∅ true
              (Returned [mk_row "e9"
                           (Database.mk_record "failed" None None VNone (VBool true) VNone)
                           None ∅]))
           (status_of_row
              (mk_row "e9" (Database.mk_record "failed" None None VNone (VBool true) VNone)
                      None ∅)));
    vm_compute; reflexivity.
Defined.

End CreateDeleteFacts.

(** ** Listing jobs *)

Section ListFacts.

Implicit Types (svc : service) (sd : status_dict).

Lemma py_slice_subseteq {A} (l : list A) start stop : py_slice l start stop ⊆ l.
Proof.
  unfold py_slice. etransitivity; [apply subseteq_take | apply subseteq_drop].
Qed.

(** A slice with bounds that are not negative. *)
Lemma py_slice_nonneg {A} (l : list A) start n :
  0 <= start -> 0 <= n ->
  py_slice l start (start + n) = take (Z.to_nat n) (drop (Z.to_nat start) l).
Proof.
  intros Hs Hn. unfold py_slice, slice_index.
  destruct (Z.ltb_spec start 0); [lia|].
  destruct (Z.ltb_spec (start + n) 0); [lia|].
  destruct (Nat.le_gt_cases (length l) (Z.to_nat start)) as [Hge|Hlt].
  - rewrite Nat.min_r by lia. rewrite !drop_ge by lia. now rewrite !take_nil.
  - rewrite (Nat.min_l (Z.to_nat start)) by lia.
    destruct (Nat.le_gt_cases (Z.to_nat (start + n)) (length l)) as [Hin|Hout].
    + rewrite Nat.min_l by lia. f_equal. lia.
    + rewrite Nat.min_r by lia.
      rewrite !take_ge; [reflexivity | |]; rewrite length_drop; lia.
Qed.

(** X26: every item that [list_experiments] returns is the summary of a
    job of the registry whose id is in the order given, and that job
    passes each filter that is set: its status is the status asked for,
    its search method the one asked for. *)
Theorem list_experiments_sound order limit offset status_filter search_method svc item :
  item ∈ list_experiments order limit offset status_filter search_method svc ->
  exists sd,
    item_id item ∈ order
    /\ experiment_status svc !! item_id item = Some sd
    /\ item = list_item (item_id item) sd
    /\ (filter_set status_filter = true -> status_filter = Some (status sd))
    /\ (filter_set search_method = true ->
        exists m, search_method = Some m /\ config sd !! "search_method" = Some (VStr m)).
Proof.
  intros Hin. apply py_slice_subseteq in Hin. unfold listed in Hin.
  apply list_elem_of_omap in Hin as (exp_id & Hord & Hitem).
  destruct (experiment_status svc !! exp_id) as [sd|] eqn:Hid; [|discriminate].
  destruct (skipped status_filter search_method sd) eqn:Hskip; [discriminate|].
  injection Hitem as <-. cbn [item_id list_item]. exists sd.
  unfold skipped in Hskip. apply orb_false_elim in Hskip as [H1 H2].
  repeat split; auto.
  - intros Hset. rewrite Hset in H1. cbn [andb] in H1.
    apply negb_false_iff, String.eqb_eq in H1.
    destruct status_filter as [f|]; [|discriminate]. simpl in H1. now subst.
  - intros Hset. rewrite Hset in H2. cbn [andb] in H2.
    destruct search_method as [m|]; [|discriminate]. exists m. split; [reflexivity|].
    unfold search_method_differs in H2. simpl in H2.
    destruct (config sd !! "search_method") as [[]|]; try discriminate.
    apply negb_false_iff, String.eqb_eq in H2. now subst.
Qed.

Lemma list_experiments_sound_witness :
  mk_item "e1" FAILED (VStr "unknown") (VStr "unknown") (VStr "unknown") (Some 9)
          (VBool false) (VFloat (S754_zero false)) (VInt 0)
    ∈ list_experiments ["e1"; "e2"] 10 0 (Some "failed") None svc_failed
  /\ exists sd,
       "e1" ∈ ["e1"; "e2"]
       /\ experiment_status svc_failed !! "e1" = Some sd
       /\ Some "failed" = Some (status sd).
Proof.
  assert (Hin : mk_item "e1" FAILED (VStr "unknown") (VStr "unknown") (VStr "unknown")
                  (Some 9) (VBool false) (VFloat (S754_zero false)) (VInt 0)
                ∈ list_experiments ["e1"; "e2"] 10 0 (Some "failed") None svc_failed).
  { vm_compute. apply list_elem_of_here. }
  split; [exact Hin|].
  destruct (list_experiments_sound _ _ _ _ _ _ _ Hin) as (sd & H1 & H2 & _ & H4 & _).
  exists sd. split; [exact H1|]. split; [exact H2|]. now apply H4.
Defined.

(** X27: with an offset and a limit that are not negative,
    [list_experiments] gives the [limit] items that follow the first
    [offset] ones of the filtered list: never more than [limit], and a
    page followed by the next page is the page of both lengths. *)
Theorem list_experiments_pages order offset a b status_filter search_method svc :
  0 <= offset -> 0 <= a -> 0 <= b ->
  list_experiments order a offset status_filter search_method svc
  = take (Z.to_nat a)
         (drop (Z.to_nat offset) (listed order status_filter search_method svc))
  /\ (length (list_experiments order a offset status_filter search_method svc)
      <= Z.to_nat a)%nat
  /\ (list_experiments order a offset status_filter search_method svc
      ++ list_experiments order b (offset + a) status_filter search_method svc)%list
     = list_experiments order (a + b) offset status_filter search_method svc.
Proof.
  intros Ho Ha Hb. unfold list_experiments.
  rewrite !py_slice_nonneg by lia. split; [reflexivity|]. split.
  - rewrite length_take. lia.
  - rewrite !Z2Nat.inj_add by lia. rewrite <- drop_drop. apply take_take_drop.
Qed.

Lemma list_experiments_pages_witness :
  0 <= 0 /\ 0 <= 1 /\ 0 <= 1
  /\ (list_experiments ["e1"; "e2"] 1 0 None None svc_failed
      ++ list_experiments ["e1"; "e2"] 1 (0 + 1) None None svc_failed)%list
     = list_experiments ["e1"; "e2"] (1 + 1) 0 None None svc_failed.
Proof.
  split; [lia|]. split; [lia|]. split; [lia|].
  apply (list_experiments_pages ["e1"; "e2"] 0 1 1 None None svc_failed); lia.
Defined.

(** A negative limit counts from the end, as slices do: with limit -1
    the last job is left out. *)
Example list_negative_limit :
  list_experiments ["e1"] (-1) 0 None None svc_failed = []
  /\ length (list_experiments ["e1"] 10 0 None None svc_failed) = 1%nat.
Proof. vm_compute. split; reflexivity. Qed.

End ListFacts.

(** ** The route id given to the child *)

Section RouteFacts.

Lemma endswith_app_suffix suffix s : endswith suffix (s ++ suffix) = true.
Proof.
  induction s as [|c s IH].
  - simpl. destruct suffix; simpl; now rewrite ?String.eqb_refl, ?Ascii.eqb_refl.
  - change (String c s ++ suffix) with (String c (s ++ suffix)).
    cbn [endswith]. rewrite IH. apply orb_true_r.
Qed.

(** X28: a route id written in parentheses, whatever is between them, is
    replaced by route ["1"]; any other route id is passed on as it is;
    and what is passed on is never in parentheses. *)
Theorem clean_route_id_cases route_id :
  (forall inner, clean_route_id ("(" ++ inner ++ ")") = "1")
  /\ (Str.startswith "(" route_id = false \/ endswith ")" route_id = false ->
      clean_route_id route_id = route_id)
  /\ Str.startswith "(" (clean_route_id route_id) && endswith ")" (clean_route_id route_id)
     = false
  /\ clean_route_id (clean_route_id route_id) = clean_route_id route_id.
Proof.
  assert (H1 : forall inner, clean_route_id ("(" ++ inner ++ ")") = "1").
  { intros inner. unfold clean_route_id.
    change ("(" ++ inner ++ ")") with (String "(" (inner ++ ")")).
    cbn [Str.startswith]. rewrite Ascii.eqb_refl. cbn [andb endswith].
    now rewrite endswith_app_suffix, orb_true_r. }
  assert (H3 : Str.startswith "(" (clean_route_id route_id)
               && endswith ")" (clean_route_id route_id) = false).
  { unfold clean_route_id.
    destruct (Str.startswith "(" route_id && endswith ")" route_id) eqn:E;
      [reflexivity | exact E]. }
  split; [exact H1|]. split; [|split; [exact H3|]].
  - intros H. unfold clean_route_id.
    destruct H as [-> | ->]; now rewrite ?andb_false_r.
  - unfold clean_route_id at 1. now rewrite H3.
Qed.

End RouteFacts.

(** ** Loading the registry at start-up *)

Section LoadFacts.

Implicit Types (svc : service) (sd : status_dict).

Lemma load_fold_active l svc :
  active_experiments
    (fold_left
       (fun s r =>
          if String.eqb (row_id r) "" then s
          else with_status_map (<[ row_id r := status_of_row r ]> (experiment_status s)) s)
       l svc) = active_experiments svc.
Proof.
  revert svc. induction l as [|r l IH]; intros svc; [reflexivity|].
  cbn [fold_left]. rewrite IH. now destruct (String.eqb (row_id r) "").
Qed.

Lemma load_fold_rows l svc id sd :
  experiment_status
    (fold_left
       (fun s r =>
          if String.eqb (row_id r) "" then s
          else with_status_map (<[ row_id r := status_of_row r ]> (experiment_status s)) s)
       l svc) !! id = Some sd ->
  experiment_status svc !! id = Some sd
  \/ exists r, r ∈ l /\ row_id r = id /\ id <> "" /\ sd = status_of_row r.
Proof.
  revert svc. induction l as [|r l IH]; intros svc; [auto|].
  cbn [fold_left]. intros H. apply IH in H as [H|(r' & Hin & Hr)].
  - destruct (String.eqb_spec (row_id r) ""); [auto|].
    cbn [experiment_status with_status_map] in H.
    destruct (decide (row_id r = id)) as [<-|Hne].
    + rewrite lookup_insert_eq in H. injection H as <-.
      right. exists r. split; [apply list_elem_of_here | auto].
    + rewrite lookup_insert_ne in H by auto. auto.
  - right. exists r'. split; [now apply list_elem_of_further | exact Hr].
Qed.

Lemma status_of_row_iteration r :
  progress_dict (status_of_row r) !! "current_iteration" = None
  \/ progress_dict (status_of_row r) !! "current_iteration" = Some (VInt 0).
Proof.
  unfold status_of_row, progress_dict. cbn [progress].
  destruct (negb _ || _); [right | left]; [apply lookup_insert_eq | apply lookup_empty].
Qed.

(** X29: the service after start-up.  No job has a task, so every job
    that was loaded can be started, whatever status the store had for it,
    [running] included.  Each job of the registry comes from a row with
    that id, not empty, and no job has an iteration other than 0: the
    iteration reached before the restart is not kept.  When reading the
    rows raised, the registry is empty. *)
Theorem new_service_loaded table up rows :
  active_experiments (new_service table up rows) = ∅
  /\ (forall id sd, experiment_status (new_service table up rows) !! id = Some sd ->
        exists l r, rows = Returned l /\ r ∈ l /\ row_id r = id /\ id <> ""
                    /\ sd = status_of_row r)
  /\ (forall id, progress_item (new_service table up rows) id "current_iteration" = None
                 \/ progress_item (new_service table up rows) id "current_iteration"
                    = Some (VInt 0))
  /\ (forall id now, is_Some (experiment_status (new_service table up rows) !! id) ->
        fst (start_experiment id now (new_service table up rows)) = Returned tt
        /\ job_status (snd (start_experiment id now (new_service table up rows))) id
           = Some "running")
  /\ (forall e, rows = Raised e -> experiment_status (new_service table up rows) = ∅).
Proof.
  assert (Hact : active_experiments (new_service table up rows) = ∅).
  { unfold new_service, _load_experiments_from_database.
    destruct rows; [apply load_fold_active | reflexivity]. }
  assert (Hrows : forall id sd,
            experiment_status (new_service table up rows) !! id = Some sd ->
            exists l r, rows = Returned l /\ r ∈ l /\ row_id r = id /\ id <> ""
                        /\ sd = status_of_row r).
  { intros id sd. unfold new_service, _load_experiments_from_database.
    destruct rows as [l|e];
      [|cbn [experiment_status]; rewrite lookup_empty; discriminate].
    intros H. apply load_fold_rows in H as [H|(r & Hr)].
    - cbn [experiment_status] in H. now rewrite lookup_empty in H.
    - exists l, r. auto. }
  split; [exact Hact|]. split; [exact Hrows|]. split; [|split].
  - intros id. unfold progress_item.
    destruct (experiment_status (new_service table up rows) !! id) as [sd|] eqn:E;
      [|auto].
    destruct (Hrows id sd E) as (l & r & _ & _ & _ & _ & ->).
    apply status_of_row_iteration.
  - intros id now [sd Hid].
    assert (Hnone : active_experiments (new_service table up rows) !! id = None)
      by (rewrite Hact; apply lookup_empty).
    destruct (start_ok id now _ sd Hid Hnone) as (H1 & H2 & _). auto.
  - intros e ->. reflexivity.
Qed.

End LoadFacts.
